(** * Paginated export handlers of [example-fixes.js]

    A shallow embedding of the pagination, projection and size-check
    examples of [src/example-fixes.js], and the properties of the
    "bounded-size paginated data export" contract checked against them.

    Layout:
    - [JS]: the JavaScript values the handlers compute with (numbers,
      strings, [parseInt], [ToNumber], [JSON.stringify], UTF-8 length);
    - [Store]: the document store the handlers query, an external
      collaborator;
    - the world a handler runs in (store and console) and the computations
      over it;
    - the handlers [handler_good_example_1], [handler_good_example_2],
      [handler] and the helper [checkResponseSize];
    - the properties, one section per claim. *)

From Stdlib Require Import List String Ascii Bool ZArith NArith QArith Qround Lia.
From Stdlib Require Import DecimalString DecimalPos.
Import ListNotations.

Set Warnings "-register-all".

Local Open Scope string_scope.
Local Open Scope Z_scope.

(* ================================================================== *)
(** * JavaScript values *)
(* ================================================================== *)

Module JS.

(** ** Numbers

    The numbers the handlers compute with are page numbers, page sizes,
    offsets and counts.  They are modelled by their mathematical value: an
    integer, one of the two infinities, or NaN.  Integers are unbounded
    here, which agrees with IEEE doubles below 2^53: beyond it JavaScript
    rounds sums, differences and products, and answers [Infinity] past
    2^1024.  The properties that compute with the numbers of a request are
    therefore stated for numbers up to [MAX_SAFE_INTEGER], or for numbers
    that the size of a collection bounds.  Negative zero is identified with
    zero (the two are [===] and serialize alike). *)

Inductive number : Type :=
| NaN
| Inf (neg : bool)
| Int (z : Z).

Definition is_neg (z : Z) : bool := z <? 0.

(** [a - b] *)
Definition num_sub (a b : number) : number :=
  match a, b with
  | NaN, _ | _, NaN => NaN
  | Inf s, Inf t => if Bool.eqb s t then NaN else Inf s
  | Inf s, Int _ => Inf s
  | Int _, Inf t => Inf (negb t)
  | Int x, Int y => Int (x - y)
  end.

(** [a * b] *)
Definition num_mul (a b : number) : number :=
  match a, b with
  | NaN, _ | _, NaN => NaN
  | Inf s, Inf t => Inf (xorb s t)
  | Inf s, Int y => if y =? 0 then NaN else Inf (xorb s (is_neg y))
  | Int x, Inf t => if x =? 0 then NaN else Inf (xorb (is_neg x) t)
  | Int x, Int y => Int (x * y)
  end.

(** [a < b] *)
Definition num_lt (a b : number) : bool :=
  match a, b with
  | NaN, _ | _, NaN => false
  | Inf s, Inf t => s && negb t
  | Inf s, Int _ => s
  | Int _, Inf t => negb t
  | Int x, Int y => x <? y
  end.

(** [a === b] on numbers *)
Definition num_strict_eq (a b : number) : bool :=
  match a, b with
  | Int x, Int y => x =? y
  | Inf s, Inf t => Bool.eqb s t
  | _, _ => false
  end.

(** [Math.ceil(a / b)].  The quotient is in general not an integer, so the
    two operations are modelled together. *)
Definition ceil_div (a b : number) : number :=
  match a, b with
  | NaN, _ | _, NaN => NaN
  | Inf _, Inf _ => NaN
  | Inf s, Int y => Inf (xorb s (is_neg y))
  | Int _, Inf _ => Int 0
  | Int x, Int y =>
      if y =? 0 then
        (if x =? 0 then NaN else Inf (is_neg x))
      else Int (- ((- x) / y))
  end.

(** ** Strings

    A JavaScript string is a sequence of UTF-16 code units.  The model keeps
    the strings whose code units are below 256 and uses Rocq's [string] for
    them, one [ascii] per code unit. *)

Definition code (c : ascii) : N := N_of_ascii c.

(** White space of [parseInt] and of [ToNumber], among code units below
    256: TAB, LF, VT, FF, CR, SP and NBSP. *)
Definition is_white (c : ascii) : bool :=
  let n := code c in
  ((9 <=? n) && (n <=? 13) || (n =? 32) || (n =? 160))%N.

Fixpoint trim_start (s : string) : string :=
  match s with
  | EmptyString => EmptyString
  | String c s' => if is_white c then trim_start s' else s
  end.

Fixpoint trim_end (s : string) : string :=
  match s with
  | EmptyString => EmptyString
  | String c s' =>
      match trim_end s' with
      | EmptyString => if is_white c then EmptyString else String c EmptyString
      | t => String c t
      end
  end.

(** The value of [c] as a digit in the given radix (at most 16). *)
Definition digit_val (radix : N) (c : ascii) : option N :=
  let n := code c in
  let v :=
    (if (48 <=? n) && (n <=? 57) then Some (n - 48)
     else if (97 <=? n) && (n <=? 102) then Some (n - 87)
     else if (65 <=? n) && (n <=? 70) then Some (n - 55)
     else None)%N in
  match v with
  | Some d => if (d <? radix)%N then Some d else None
  | None => None
  end.

(** The value of the longest prefix of [s] made of digits; [acc] is [None]
    until a digit has been read. *)
Fixpoint parse_prefix (radix : N) (s : string) (acc : option N) : option N :=
  match s with
  | EmptyString => acc
  | String c s' =>
      match digit_val radix c with
      | Some d =>
          parse_prefix radix s'
            (Some (radix * match acc with Some a => a | None => 0 end + d)%N)
      | None => acc
      end
  end.

(** The value of [s] when all of it is digits, and there is one. *)
Fixpoint parse_all (radix : N) (s : string) (acc : N) : option N :=
  match s with
  | EmptyString => Some acc
  | String c s' =>
      match digit_val radix c with
      | Some d => parse_all radix s' (radix * acc + d)%N
      | None => None
      end
  end.

Definition parse_literal (radix : N) (s : string) : option N :=
  match s with
  | EmptyString => None
  | _ => parse_all radix s 0%N
  end.

(** A leading sign, and the rest. *)
Definition split_sign (s : string) : bool * string :=
  match s with
  | String "-" s' => (true, s')
  | String "+" s' => (false, s')
  | _ => (false, s)
  end.

Definition signed (neg : bool) (m : N) : number :=
  Int (if neg then - Z.of_N m else Z.of_N m).

(** [parseInt(s)] on a string, no radix given: leading white space is
    dropped, then an optional sign, then [0x] or [0X] selects radix 16; the
    longest run of digits is read and the rest ignored; no digit gives
    NaN.  The integer read is exact, as JavaScript's is up to 2^53; a longer
    run of digits JavaScript rounds, and reads as [Infinity] past 2^1024. *)
Definition parseInt_string (s : string) : number :=
  let (neg, s1) := split_sign (trim_start s) in
  let (radix, s2) :=
    match s1 with
    | String "0" (String "x" r) | String "0" (String "X" r) => (16%N, r)
    | _ => (10%N, s1)
    end in
  match parse_prefix radix s2 None with
  | Some m => signed neg m
  | None => NaN
  end.

(** [ToNumber] on a string.  White space is trimmed at both ends; the empty
    string is 0; [Infinity] may carry a sign; [0x], [0o] and [0b] literals
    carry none; a decimal integer literal may.  Decimal literals with a
    fraction or an exponent denote numbers the integer model has no value
    for: this function answers NaN on them, and no property below is stated
    for such a parameter. *)
Definition StringToNumber (s : string) : number :=
  let t := trim_end (trim_start s) in
  match t with
  | EmptyString => Int 0
  | String "0" (String "x" r) | String "0" (String "X" r) =>
      match parse_literal 16 r with Some m => signed false m | None => NaN end
  | String "0" (String "o" r) | String "0" (String "O" r) =>
      match parse_literal 8 r with Some m => signed false m | None => NaN end
  | String "0" (String "b" r) | String "0" (String "B" r) =>
      match parse_literal 2 r with Some m => signed false m | None => NaN end
  | _ =>
      let (neg, u) := split_sign t in
      if String.eqb u "Infinity" then Inf neg
      else match parse_literal 10 u with
           | Some m => signed neg m
           | None => NaN
           end
  end.

(** [ToString] on a number (integers below 10^21 print in full). *)
Definition NumberToString (n : number) : string :=
  match n with
  | NaN => "NaN"
  | Inf false => "Infinity"
  | Inf true => "-Infinity"
  | Int z => NilZero.string_of_int (Z.to_int z)
  end.

(** A variable destructured from [req.query]: the string the request
    carries, or the number the destructuring default supplies. *)
Inductive qvar : Type :=
| PNum (n : number)
| PStr (s : string).

Definition ToString (v : qvar) : string :=
  match v with PNum n => NumberToString n | PStr s => s end.

Definition ToNumber (v : qvar) : number :=
  match v with PNum n => n | PStr s => StringToNumber s end.

(** [parseInt(v)]: the argument is first converted to a string. *)
Definition parseInt (v : qvar) : number := parseInt_string (ToString v).

(** ** Values

    The values documents hold and responses carry: JSON data and
    [undefined].  Functions, symbols and BigInts, which [JSON.stringify]
    treats in ways of their own, are no data of a document and have no
    constructor here.  An object is the list of its own properties in
    property order; names are taken not to be array indices, which
    JavaScript would list first. *)

Inductive value : Type :=
| VUndefined
| VNull
| VBool (b : bool)
| VNum (n : number)
| VStr (s : string)
| VArr (items : list value)
| VObj (props : list (string * value)).

Definition object : Type := list (string * value).

(** [o.k]: the property, or [undefined]. *)
Fixpoint get_prop (k : string) (o : object) : value :=
  match o with
  | [] => VUndefined
  | (k', v) :: o' => if String.eqb k k' then v else get_prop k o'
  end.

Fixpoint has_prop (k : string) (o : object) : bool :=
  match o with
  | [] => false
  | (k', _) :: o' => String.eqb k k' || has_prop k o'
  end.

(** [o.k = v]: an existing property keeps its place, a new one goes last. *)
Fixpoint set_prop (k : string) (v : value) (o : object) : object :=
  match o with
  | [] => [(k, v)]
  | (k', v') :: o' =>
      if String.eqb k k' then (k, v) :: o' else (k', v') :: set_prop k v o'
  end.

(** [{ ...o, ...src }]: the properties of [src] are copied onto [o] in
    order. *)
Definition spread (o src : object) : object :=
  fold_left (fun acc kv => set_prop (fst kv) (snd kv) acc) src o.

Definition keys (o : object) : list string := map fst o.

(** [s.substring(0, n)] *)
Definition substring0 (n : nat) (s : string) : string := String.substring 0 n s.

(** ** JSON.stringify and Buffer.byteLength *)

Definition dquote : ascii := ascii_of_N 34.
Definition bslash : ascii := ascii_of_N 92.

Definition hex_digit (n : N) : ascii :=
  if (n <? 10)%N then ascii_of_N (48 + n) else ascii_of_N (87 + n).

(** One code unit inside a JSON string literal. *)
Definition escape_char (c : ascii) : string :=
  let n := code c in
  if (n =? 8)%N then String bslash "b"
  else if (n =? 9)%N then String bslash "t"
  else if (n =? 10)%N then String bslash "n"
  else if (n =? 12)%N then String bslash "f"
  else if (n =? 13)%N then String bslash "r"
  else if (n =? 34)%N then String bslash (String dquote "")
  else if (n =? 92)%N then String bslash (String bslash "")
  else if (n <? 32)%N then
    String bslash
      ("u00" ++ String (hex_digit (n / 16)) (String (hex_digit (n mod 16)) ""))
  else String c "".

Fixpoint escape (s : string) : string :=
  match s with
  | EmptyString => EmptyString
  | String c s' => escape_char c ++ escape s'
  end.

Definition quote (s : string) : string :=
  String dquote (escape s ++ String dquote "").

(** [JSON.stringify(v)]; [None] is the [undefined] it answers for a value
    that has no JSON text.  Inside an array such a value prints as [null];
    inside an object its property is left out. *)
Fixpoint stringify (v : value) : option string :=
  match v with
  | VUndefined => None
  | VNull => Some "null"
  | VBool b => Some (if b then "true" else "false")
  | VNum (Int z) => Some (NumberToString (Int z))
  | VNum _ => Some "null"
  | VStr s => Some (quote s)
  | VArr items =>
      Some ("[" ++
            String.concat ","
              (map (fun x => match stringify x with
                             | Some s => s
                             | None => "null"
                             end) items)
            ++ "]")
  | VObj props =>
      Some ("{" ++
            String.concat ","
              (flat_map (fun kv => match stringify (snd kv) with
                                   | Some s => [quote (fst kv) ++ ":" ++ s]
                                   | None => []
                                   end) props)
            ++ "}")
  end.

(** [Buffer.byteLength(s, 'utf8')]: a code unit below 128 takes one byte,
    one from 128 to 255 takes two. *)
Fixpoint byteLength (s : string) : Z :=
  match s with
  | EmptyString => 0
  | String c s' => (if (code c <? 128)%N then 1 else 2) + byteLength s'
  end.

End JS.

Import JS.

(* ================================================================== *)
(** * Exceptions *)
(* ================================================================== *)

Inductive error : Type :=
| TypeError (msg : string)
| InvalidArgument (msg : string).

Inductive Result (A : Type) : Type :=
| Ok (a : A)
| Throw (e : error).
Arguments Ok {A} a.
Arguments Throw {A} e.

(* ================================================================== *)
(** * The document store *)
(* ================================================================== *)

(** The handlers query a document database through its server client
    ([db.collection(..).where(..).orderBy(..).limit(..).offset(..).get()]).
    The client is not part of the repository.  It is modelled in memory as
    the backing source the specification describes: equality filters are
    applied by the source, the records come in a stable order, [offset]
    records are skipped and at most [limit] are returned. *)
Module Store.

Record Doc : Type := mkDoc { doc_id : string; doc_data : object }.

(** A database gives each collection its documents, in the store's default
    order (by document name). *)
Definition Db : Type := string -> list Doc.

Inductive direction : Type := Asc | Desc.

(** A query under construction.  Each builder call returns a new query. *)
Record Query : Type := mkQuery {
  q_collection : string;
  q_where : list (string * string);
  q_orderBy : option (string * direction);
  q_limit : option number;
  q_offset : option number
}.

Definition collection (name : string) : Query :=
  mkQuery name [] None None None.

(** [q.where(field, '==', v)], [v] a string. *)
Definition where_eq (field v : string) (q : Query) : Query :=
  mkQuery (q_collection q) (q_where q ++ [(field, v)]) (q_orderBy q)
          (q_limit q) (q_offset q).

Definition orderBy (field : string) (d : direction) (q : Query) : Query :=
  mkQuery (q_collection q) (q_where q) (Some (field, d))
          (q_limit q) (q_offset q).

Definition limit (n : number) (q : Query) : Query :=
  mkQuery (q_collection q) (q_where q) (q_orderBy q) (Some n) (q_offset q).

Definition offset (n : number) (q : Query) : Query :=
  mkQuery (q_collection q) (q_where q) (q_orderBy q) (q_limit q) (Some n).

(** What [get()] resolves to. *)
Record Snapshot : Type := mkSnapshot { docs : list Doc }.

Definition size (s : Snapshot) : number := Int (Z.of_nat (List.length (docs s))).

Definition matches (d : Doc) (cond : string * string) : bool :=
  match get_prop (fst cond) (doc_data d) with
  | VStr s => String.eqb s (snd cond)
  | _ => false
  end.

(** The store's order on field values: null, booleans, numbers, strings,
    arrays, maps; numbers by value with NaN first, strings by code unit.
    Arrays and maps are not compared further. *)
Definition rank (v : value) : Z :=
  match v with
  | VUndefined => 0
  | VNull => 1
  | VBool _ => 2
  | VNum _ => 3
  | VStr _ => 4
  | VArr _ => 5
  | VObj _ => 6
  end.

Definition num_leb (a b : number) : bool :=
  match a, b with
  | NaN, _ => true
  | _, NaN => false
  | _, _ => negb (num_lt b a)
  end.

Fixpoint str_leb (a b : string) : bool :=
  match a, b with
  | EmptyString, _ => true
  | String _ _, EmptyString => false
  | String x a', String y b' =>
      if (code x <? code y)%N then true
      else if (code y <? code x)%N then false
      else str_leb a' b'
  end.

Definition value_leb (a b : value) : bool :=
  match a, b with
  | VBool x, VBool y => implb x y
  | VNum x, VNum y => num_leb x y
  | VStr x, VStr y => str_leb x y
  | _, _ => rank a <=? rank b
  end.

(** Stable insertion sort of documents on a field, ascending. *)
Fixpoint insert_doc (field : string) (d : Doc) (l : list Doc) : list Doc :=
  match l with
  | [] => [d]
  | e :: l' =>
      if value_leb (get_prop field (doc_data d)) (get_prop field (doc_data e))
      then d :: l
      else e :: insert_doc field d l'
  end.

Definition sort_docs (field : string) (l : list Doc) : list Doc :=
  fold_right (insert_doc field) [] l.

(** [orderBy(field, direction)], as the client documents it: the records
    that have the field, sorted on it; a record without the field is in no
    ordered result.  The handlers fix the field, [createdAt]; the
    specification says of the order only that it is stable. *)
Definition ordered (o : option (string * direction)) (l : list Doc) : list Doc :=
  match o with
  | None => l
  | Some (field, d) =>
      let present := filter (fun x => has_prop field (doc_data x)) l in
      match d with
      | Asc => sort_docs field present
      | Desc => rev (sort_docs field present)
      end
  end.

(** A limit or an offset the store accepts: a non-negative integer.  The
    client documents that it rejects any other number with an invalid
    argument error; the specification does not speak of it. *)
Definition count_of (n : option number) : Result (option nat) :=
  match n with
  | None => Ok None
  | Some (Int z) =>
      if z <? 0 then Throw (InvalidArgument "negative")
      else Ok (Some (Z.to_nat z))
  | Some _ => Throw (InvalidArgument "not an integer")
  end.

(** The documents a query selects, before [offset] and [limit]. *)
Definition selected (db : Db) (q : Query) : list Doc :=
  ordered (q_orderBy q)
    (filter (fun d => forallb (matches d) (q_where q)) (db (q_collection q))).

(** Modelled from the spec: the database client [db], whose [get()] the
    handlers await, is not in the repository.  [run] is the
    [fetchSlice(filters, offset, limit)] of the backing source: the records
    the filters select, in the source's stable order, without the first
    [offset] and cut to [limit].  A limit or an offset that is not a
    non-negative integer is rejected. *)
Definition run (db : Db) (q : Query) : Result Snapshot :=
  match count_of (q_limit q), count_of (q_offset q) with
  | Throw e, _ | Ok _, Throw e => Throw e
  | Ok lim, Ok off =>
      let l := selected db q in
      let l := match off with Some k => skipn k l | None => l end in
      let l := match lim with Some n => firstn n l | None => l end in
      Ok (mkSnapshot l)
  end.

End Store.

Import Store.

(* ================================================================== *)
(** * The world a handler runs in *)
(* ================================================================== *)

Inductive console_event : Type :=
| ConsoleLog (msg : string)
| ConsoleWarn (msg : string)
| ConsoleError (msg : string) (e : error).

(** The database the handlers read and the console they write to. *)
Record World : Type := mkWorld {
  w_db : Db;
  w_console : list console_event
}.

(** A computation that may read the store, write to the console and
    throw. *)
Definition M (A : Type) : Type := World -> Result A * World.

Definition ret {A} (a : A) : M A := fun w => (Ok a, w).

Definition bind {A B} (m : M A) (k : A -> M B) : M B :=
  fun w =>
    match m w with
    | (Ok a, w') => k a w'
    | (Throw e, w') => (Throw e, w')
    end.

Notation "x <- m ;; k" := (bind m (fun x => k))
  (at level 61, m at next level, right associativity).
Notation "m ;;; k" := (bind m (fun _ => k))
  (at level 61, right associativity).

(** [try { m } catch (error) { h error }] *)
Definition try_catch {A} (m : M A) (h : error -> M A) : M A :=
  fun w =>
    match m w with
    | (Ok a, w') => (Ok a, w')
    | (Throw e, w') => h e w'
    end.

Definition lift {A} (r : Result A) : M A := fun w => (r, w).

(** [await q.get()] *)
Definition get (q : Query) : M Snapshot := fun w => (run (w_db w) q, w).

Definition console (ev : console_event) : M unit :=
  fun w => (Ok tt, mkWorld (w_db w) (w_console w ++ [ev])).

(** [xs.map(f)] for a callback that may throw. *)
Fixpoint map_result {A B} (f : A -> Result B) (l : list A) : Result (list B) :=
  match l with
  | [] => Ok []
  | x :: l' =>
      match f x with
      | Throw e => Throw e
      | Ok y =>
          match map_result f l' with
          | Throw e => Throw e
          | Ok ys => Ok (y :: ys)
          end
      end
  end.

(* ================================================================== *)
(** * Requests and responses *)
(* ================================================================== *)

(** [req]: the method and the query parameters, each a string. *)
Record Request : Type := mkRequest {
  method : string;
  query : list (string * string)
}.

Fixpoint lookup (k : string) (q : list (string * string)) : option string :=
  match q with
  | [] => None
  | (k', v) :: q' => if String.eqb k k' then Some v else lookup k q'
  end.

(** [const { k = d } = req.query]: the default applies when the parameter
    is absent. *)
Definition destructure (k : string) (d : qvar) (req : Request) : qvar :=
  match lookup k (query req) with
  | Some s => PStr s
  | None => d
  end.

(** What [res.status(s).json(b)] sends; [res.json(b)] sends it with
    status 200. *)
Record Response : Type := mkResponse {
  status : Z;
  body : value
}.

Definition json (s : Z) (b : value) : Response := mkResponse s b.

(* ================================================================== *)
(** * The handlers *)
(* ================================================================== *)

(** [{ id: doc.id, ...doc.data() }] *)
Definition item_of_doc (doc : Doc) : value :=
  VObj (spread [("id", VStr (doc_id doc))] (doc_data doc)).

(** Pattern 1, the fix: pagination. *)
Definition handler_good_example_1 (req : Request) : M Response :=
  let page := destructure "page" (PNum (Int 1)) req in
  let limit := destructure "limit" (PNum (Int 50)) req in
  let offset := num_mul (num_sub (ToNumber page) (Int 1)) (parseInt limit) in
  snapshot <-
    get (Store.offset offset
           (Store.limit (parseInt limit) (collection "items"))) ;;
  let items := map item_of_doc (docs snapshot) in
  ret (json 200
         (VObj [("items", VArr items);
                ("page", VNum (parseInt page));
                ("limit", VNum (parseInt limit));
                ("hasMore",
                 VBool (num_strict_eq (size snapshot) (parseInt limit)))])).

(** [data.description?.substring(0, 200)]: [undefined] when the receiver is
    [undefined] or [null]; a value that is not a string has no [substring]
    method, and calling it throws. *)
Definition shortDescription_of (description : value) : Result value :=
  match description with
  | VUndefined | VNull => Ok VUndefined
  | VStr s => Ok (VStr (substring0 200 s))
  | _ => Throw (TypeError "data.description?.substring is not a function")
  end.

(** The callback of [snapshot.docs.map] in [handler_good_example_2]. *)
Definition project_doc (doc : Doc) : Result value :=
  let data := doc_data doc in
  match shortDescription_of (get_prop "description" data) with
  | Throw e => Throw e
  | Ok short =>
      Ok (VObj [("id", VStr (doc_id doc));
                ("name", get_prop "name" data);
                ("category", get_prop "category" data);
                ("imageUrl", get_prop "imageUrl" data);
                ("shortDescription", short)])
  end.

(** Pattern 2, the fix: large fields left out. *)
Definition handler_good_example_2 (req : Request) : M Response :=
  let page := destructure "page" (PNum (Int 1)) req in
  let limit := destructure "limit" (PNum (Int 50)) req in
  snapshot <-
    get (Store.offset
           (num_mul (num_sub (ToNumber page) (Int 1)) (parseInt limit))
           (Store.limit (parseInt limit) (collection "items"))) ;;
  items <- lift (map_result project_doc (docs snapshot)) ;;
  ret (json 200 (VObj [("items", VArr items);
                       ("page", VNum (parseInt page))])).

(** ** The size check *)

(** [Buffer.byteLength(jsonString, 'utf8')]; it throws on [undefined]. *)
Definition Buffer_byteLength (jsonString : option string) : Result Z :=
  match jsonString with
  | Some s => Ok (byteLength s)
  | None => Throw (TypeError "The string argument must be of type string")
  end.

Definition digit_char (d : Z) : ascii := ascii_of_N (48 + Z.to_N d).

(** [x.toFixed(2)] for [x >= 0]: the closest multiple of 1/100, the larger
    one on a tie. *)
Definition toFixed2 (x : Q) : string :=
  let n := Qfloor (x * (100 # 1) + (1 # 2)) in
  NumberToString (Int (n / 100)) ++ "." ++
  String (digit_char ((n mod 100) / 10))
         (String (digit_char (n mod 10)) "").

(** [sizeInBytes / (1024 * 1024)].  Dividing an integer below 2^53 by a
    power of two is exact on doubles, so the rational is the value the code
    compares. *)
Definition sizeInMB_of (sizeInBytes : Z) : Q :=
  (inject_Z sizeInBytes / inject_Z (1024 * 1024))%Q.

(** [sizeInMB > 4.5] *)
Definition over_limit (sizeInMB : Q) : bool := negb (Qle_bool sizeInMB (9 # 2)).

(** The helper that reports the size of a response (the warning text is
    given without its leading sign, a code unit above 255). *)
Definition checkResponseSize (data : value) : M Q :=
  let jsonString := stringify data in
  sizeInBytes <- lift (Buffer_byteLength jsonString) ;;
  let sizeInMB := sizeInMB_of sizeInBytes in
  console (ConsoleLog ("Response size: " ++ toFixed2 sizeInMB ++ " MB")) ;;;
  (if over_limit sizeInMB
   then console (ConsoleWarn "WARNING: Response exceeds 4.5MB limit!")
   else ret tt) ;;;
  ret sizeInMB.

(** ** The complete example *)

(** [if (category)]: a parameter that is present and not empty. *)
Definition truthy (s : option string) : bool :=
  match s with
  | Some (String _ _) => true
  | _ => false
  end.

Definition status_of (req : Request) : string :=
  match lookup "status" (query req) with
  | Some s => s
  | None => "active"
  end.

(** The query the complete example builds. *)
Definition query_handler (req : Request) : Query :=
  let page := destructure "page" (PNum (Int 1)) req in
  let limit := destructure "limit" (PNum (Int 50)) req in
  let category := lookup "category" (query req) in
  let status := status_of req in
  let query :=
    Store.offset (num_mul (num_sub (parseInt page) (Int 1)) (parseInt limit))
      (Store.limit (parseInt limit)
         (orderBy "createdAt" Desc
            (where_eq "status" status (collection "items")))) in
  match category with
  | Some c => if truthy category then where_eq "category" c query else query
  | None => query
  end.

Definition item_handler (doc : Doc) : value :=
  let data := doc_data doc in
  VObj [("id", VStr (doc_id doc));
        ("name", get_prop "name" data);
        ("category", get_prop "category" data);
        ("location", get_prop "location" data);
        ("createdAt", get_prop "createdAt" data);
        ("imageUrl", get_prop "imageUrl" data)].

(** The complete example: a Next.js API route with pagination. *)
Definition handler (req : Request) : M Response :=
  if negb (String.eqb (method req) "GET") then
    ret (json 405 (VObj [("error", VStr "Method not allowed")]))
  else
    try_catch
      (let page := destructure "page" (PNum (Int 1)) req in
       let limit := destructure "limit" (PNum (Int 50)) req in
       let status := status_of req in
       snapshot <- get (query_handler req) ;;
       let items := map item_handler (docs snapshot) in
       totalSnapshot <- get (where_eq "status" status (collection "items")) ;;
       ret (json 200
              (VObj [("items", VArr items);
                     ("pagination",
                      VObj [("page", VNum (parseInt page));
                            ("limit", VNum (parseInt limit));
                            ("total", VNum (size totalSnapshot));
                            ("totalPages",
                             VNum (ceil_div (size totalSnapshot)
                                            (parseInt limit)));
                            ("hasMore",
                             VBool (num_lt (num_mul (parseInt page)
                                                    (parseInt limit))
                                           (size totalSnapshot)))])])))
      (fun error =>
         console (ConsoleError "Error fetching items:" error) ;;;
         ret (json 500 (VObj [("error", VStr "Internal server error")]))).

(* ================================================================== *)
(** * Requests, pages and sample data used in the statements *)
(* ================================================================== *)

Definition page_of (req : Request) : qvar :=
  destructure "page" (PNum (Int 1)) req.

Definition limit_of (req : Request) : qvar :=
  destructure "limit" (PNum (Int 50)) req.

(** A request whose page number is the integer [p >= 1] and whose page size
    is the integer [n >= 1].  The page is read with [ToNumber] where the
    code subtracts from it and with [parseInt] where it echoes it; the page
    size is always read with [parseInt]. *)
Definition valid_page_request (req : Request) (p n : Z) : Prop :=
  ToNumber (page_of req) = Int p /\
  parseInt (page_of req) = Int p /\
  parseInt (limit_of req) = Int n /\
  1 <= p /\ 1 <= n.

(** Page [p] of size [n] of a list: [n] elements from position
    [(p - 1) * n]. *)
Definition page_slice {A} (l : list A) (p n : Z) : list A :=
  firstn (Z.to_nat n) (skipn (Z.to_nat ((p - 1) * n)) l).

Definition props (v : value) : object :=
  match v with VObj o => o | _ => [] end.

(** The query [handler_good_example_1] builds and awaits (and
    [handler_good_example_2] with it), under a name: the handlers build it
    in line, and [handler_good_example_1_awaits] shows it is this one. *)
Definition query_good_example_1 (req : Request) : Query :=
  Store.offset
    (num_mul (num_sub (ToNumber (page_of req)) (Int 1))
             (parseInt (limit_of req)))
    (Store.limit (parseInt (limit_of req)) (collection "items")).

(** The query that counts the records with the requested status. *)
Definition total_query (req : Request) : Query :=
  where_eq "status" (status_of req) (collection "items").

(** The request a client sends for page [p] with page size [limit]. *)
Definition page_request (p : Z) (limit : string) : Request :=
  mkRequest "GET" [("page", NumberToString (Int p)); ("limit", limit)].


Definition sample_doc (i : nat) : Doc :=
  mkDoc ("doc" ++ NumberToString (Int (Z.of_nat i)))
        [("name", VStr "x");
         ("status", VStr "active");
         ("createdAt", VNum (Int (Z.of_nat i)))].

Definition sample_db (n : nat) : Db :=
  fun name => if String.eqb name "items" then map sample_doc (seq 0 n) else [].

Definition sample_world (n : nat) : World := mkWorld (sample_db n) [].

(** The two console events of [checkResponseSize].  The warning of the
    source opens with a warning sign (U+26A0 U+FE0F) and a space, code units
    beyond the strings of this model; the text here is the rest of it. *)
Definition size_log (b : Z) : console_event :=
  ConsoleLog ("Response size: " ++ toFixed2 (sizeInMB_of b) ++ " MB").

Definition size_warning : console_event :=
  ConsoleWarn "WARNING: Response exceeds 4.5MB limit!".

(** The text of an array element: [null] for a value without JSON text. *)
Definition element_text (x : value) : string :=
  match stringify x with Some s => s | None => "null" end.

(** The texts of the properties of an object that have one. *)
Definition property_texts (o : object) : list string :=
  flat_map (fun kv => match stringify (snd kv) with
                      | Some s => [quote (fst kv) ++ ":" ++ s]
                      | None => []
                      end) o.

(** A response body with an [items] array first, as the handlers build
    it. *)
Definition page_body (items : list value) (rest : object) : value :=
  VObj (("items", VArr items) :: rest).

(** The fields of a record projected by [handler_good_example_2]. *)
Definition projected_fields : list string :=
  ["id"; "name"; "category"; "imageUrl"; "shortDescription"].

(** A [description] the projection can truncate: absent, [null] or a
    string. *)
Definition nullish_or_string (v : value) : bool :=
  match v with
  | VUndefined | VNull | VStr _ => true
  | _ => false
  end.


(** The value of a sequence of decimal digits read after [acc]. *)
Fixpoint digits_value (d : Decimal.uint) (acc : N) : N :=
  match d with
  | Decimal.Nil => acc
  | Decimal.D0 d => digits_value d (10 * acc)
  | Decimal.D1 d => digits_value d (10 * acc + 1)
  | Decimal.D2 d => digits_value d (10 * acc + 2)
  | Decimal.D3 d => digits_value d (10 * acc + 3)
  | Decimal.D4 d => digits_value d (10 * acc + 4)
  | Decimal.D5 d => digits_value d (10 * acc + 5)
  | Decimal.D6 d => digits_value d (10 * acc + 6)
  | Decimal.D7 d => digits_value d (10 * acc + 7)
  | Decimal.D8 d => digits_value d (10 * acc + 8)
  | Decimal.D9 d => digits_value d (10 * acc + 9)
  end%N.

(** A string value of [n] letters. *)
Definition blob (n : N) : value := VStr (N.iter n (String "a") "").

(** The record of the projection scenario. *)
Definition scenario_doc : Doc :=
  mkDoc "doc1"
        [("name", VStr "x");
         ("image", VStr "<huge-base64>");
         ("imageUrl", VStr "https://...")].

(* ================================================================== *)
(** * The other examples of [example-fixes.js] *)
(* ================================================================== *)

(** A loop [for (const x of xs) { ... await ... }] whose body yields one
    result per element, collected in order. *)
Fixpoint for_each {A B} (f : A -> M B) (l : list A) : M (list B) :=
  match l with
  | [] => ret []
  | x :: l' => y <- f x ;; ys <- for_each f l' ;; ret (y :: ys)
  end.

(** [doc.data()] of a document of a query snapshot. *)
Definition data_of_doc (doc : Doc) : value := VObj (doc_data doc).

(** Pattern 1, the problem: the whole collection in one response. *)
Definition handler_bad_example_1 (req : Request) : M Response :=
  snapshot <- get (collection "items") ;;
  let allItems := map data_of_doc (docs snapshot) in
  ret (json 200 (VArr allItems)).

(** [s || d] on a query parameter: [d] when the parameter is absent or
    empty. *)
Definition or_else (s : option string) (d : string) : string :=
  match s with
  | Some (String c r) => String c r
  | _ => d
  end.

(** The query of [handler_good_example_3]. *)
Definition query_good_example_3 (req : Request) : Query :=
  let category := lookup "category" (query req) in
  let status := lookup "status" (query req) in
  let limit := destructure "limit" (PNum (Int 50)) req in
  let query :=
    Store.limit (parseInt limit)
      (orderBy "createdAt" Desc
         (where_eq "status" (or_else status "active") (collection "items"))) in
  match category with
  | Some c => if truthy category then where_eq "category" c query else query
  | None => query
  end.

(** Pattern 3, the fix: filtering on the server. *)
Definition handler_good_example_3 (req : Request) : M Response :=
  snapshot <- get (query_good_example_3 req) ;;
  let items := map data_of_doc (docs snapshot) in
  ret (json 200 (VObj [("items", VArr items)])).

(** The body of the loop of [handler_good_example_4]: the summary of one
    category. *)
Definition category_summary (catDoc : Doc) : M value :=
  itemsSnapshot <-
    get (Store.limit (Int 10)
           (where_eq "categoryId" (doc_id catDoc) (collection "items"))) ;;
  ret (VObj [("category",
              VObj [("id", VStr (doc_id catDoc));
                    ("name", get_prop "name" (doc_data catDoc))]);
             ("itemCount", VNum (size itemsSnapshot))]).

(** Pattern 4, the fix: summaries instead of the items. *)
Definition handler_good_example_4 (req : Request) : M Response :=
  categories <- get (collection "categories") ;;
  results <- for_each category_summary (docs categories) ;;
  ret (json 200 (VObj [("categories", VArr results)])).

(** What [db.collection(name).doc(id).get()] resolves to: the name asked
    for, and the data of the document when there is one. *)
Record DocumentSnapshot : Type := mkDocumentSnapshot {
  snap_id : string;
  snap_data : option object
}.

(** [db.collection(name).doc(id).get()].  The database client is not in the
    repository and the specification names no lookup of a single document:
    this one is modelled from the client's documentation.  The path must be
    a non-empty string, and the snapshot of a name without a document has no
    data ([data()] is [undefined]). *)
Definition doc_get (name : string) (id : option string) : M DocumentSnapshot :=
  fun w =>
    match id with
    | Some (String c r) =>
        let id := String c r in
        (Ok (mkDocumentSnapshot id
               (option_map doc_data
                  (find (fun d => String.eqb (doc_id d) id) (w_db w name)))),
         w)
    | _ => (Throw (InvalidArgument "not a valid resource path"), w)
    end.

(** [where('userId', '==', req.query.userId)]: the client rejects an
    [undefined] operand. *)
Definition where_param (field : string) (v : option string) (q : Query)
  : Result Query :=
  match v with
  | Some s => Ok (where_eq field s q)
  | None => Throw (InvalidArgument "undefined is not a valid query constraint")
  end.

Definition post_summary (doc : Doc) : value :=
  VObj [("id", VStr (doc_id doc));
        ("title", get_prop "title" (doc_data doc));
        ("createdAt", get_prop "createdAt" (doc_data doc))].

(** Pattern 5, the fix: minimal data about a user and the first posts. *)
Definition handler_good_example_5 (req : Request) : M Response :=
  let userId := lookup "userId" (query req) in
  user <- doc_get "users" userId ;;
  postsQuery <- lift (where_param "userId" userId (collection "posts")) ;;
  postsSnapshot <- get (Store.limit (Int 10) postsQuery) ;;
  match snap_data user with
  | None =>
      lift (Throw (TypeError
                     "Cannot read properties of undefined (reading 'name')"))
  | Some data =>
      ret (json 200
             (VObj [("user",
                     VObj [("id", VStr (snap_id user));
                           ("name", get_prop "name" data);
                           ("email", get_prop "email" data)]);
                    ("posts", VArr (map post_summary (docs postsSnapshot)));
                    ("postCount", VNum (size postsSnapshot))]))
  end.

(** ** Streaming *)

(** The response object of a handler that writes its body itself: the
    headers set, the chunks written, and whether [end()] was called. *)
Record Stream : Type := mkStream {
  s_headers : list (string * string);
  s_chunks : list string;
  s_ended : bool
}.

Definition new_stream : Stream := mkStream [] [] false.

Fixpoint set_header (k v : string) (h : list (string * string))
  : list (string * string) :=
  match h with
  | [] => [(k, v)]
  | (k', v') :: h' =>
      if String.eqb k k' then (k, v) :: h' else (k', v') :: set_header k v h'
  end.

Definition setHeader (k v : string) (res : Stream) : Stream :=
  mkStream (set_header k v (s_headers res)) (s_chunks res) (s_ended res).

Definition write (chunk : string) (res : Stream) : Stream :=
  mkStream (s_headers res) (s_chunks res ++ [chunk]) (s_ended res).

Definition end_stream (res : Stream) : Stream :=
  mkStream (s_headers res) (s_chunks res) true.

(** The bytes sent so far. *)
Definition written (res : Stream) : string :=
  fold_right String.append "" (s_chunks res).

(** The loop of [handler_streaming_example]; [first] is its flag.
    [res.write] throws when [JSON.stringify] has answered [undefined]. *)
Fixpoint stream_docs (l : list Doc) (first : bool) (res : Stream)
  : Result Stream :=
  match l with
  | [] => Ok res
  | doc :: l' =>
      let res := if negb first then write "," res else res in
      match stringify (data_of_doc doc) with
      | Some s => stream_docs l' false (write s res)
      | None => Throw (TypeError "The chunk argument must be of type string")
      end
  end.

(** Pattern 7: the collection streamed as one JSON array. *)
Definition handler_streaming_example (req : Request) (res : Stream) : M Stream :=
  let res := setHeader "Content-Type" "application/json" res in
  let res := setHeader "Transfer-Encoding" "chunked" res in
  let res := write "[" res in
  snapshot <- get (collection "items") ;;
  res <- lift (stream_docs (docs snapshot) true res) ;;
  let res := write "]" res in
  ret (end_stream res).

(** ** Handlers over data the file leaves open *)

Section OpenData.

(** [getData()], a function the file calls and does not define. *)
Variable getData : M value.

(** The handler that logs the size of what it sends. *)
Definition handler_with_size_check (req : Request) : M Response :=
  data <- getData ;;
  checkResponseSize data ;;;
  ret (json 200 data).

End OpenData.

(** ** Clients and statements about the other examples *)

(** The request of a client of the complete example for page [p]: the page,
    the page size, and the other parameters as they are. *)
Definition items_request (p : Z) (limit : string) (others : list (string * string))
  : Request :=
  mkRequest "GET"
            (("page", NumberToString (Int p)) :: ("limit", limit) :: others).


(** The two error answers of the complete example. *)
Definition internal_error : Response :=
  json 500 (VObj [("error", VStr "Internal server error")]).


(** The category filter a request asks for: none when the parameter is
    absent or empty. *)
Definition category_filter (req : Request) : list (string * string) :=
  match lookup "category" (query req) with
  | Some (String c r) => [("category", String c r)]
  | _ => []
  end.

(** The text of the records [l] as the streaming loop writes them, [first]
    being its flag. *)
Fixpoint streamed_text (first : bool) (l : list Doc) : string :=
  match l with
  | [] => ""
  | d :: l' =>
      (if first then "" else ",") ++ element_text (data_of_doc d)
        ++ streamed_text false l'
  end.

(** The summary [handler_good_example_4] gives of a category, [count] being
    the number of items of the category. *)
Definition summary_of (catDoc : Doc) (count : nat) : value :=
  VObj [("category",
         VObj [("id", VStr (doc_id catDoc));
               ("name", get_prop "name" (doc_data catDoc))]);
        ("itemCount", VNum (Int (Z.min 10 (Z.of_nat count))))].

(** The records with a given string in a field. *)
Definition with_field (field v : string) (l : list Doc) : list Doc :=
  filter (fun d => matches d (field, v)) l.

(* ================================================================== *)
(** * The range of exact arithmetic, and records for the examples *)
(* ================================================================== *)

(** [Number.MAX_SAFE_INTEGER], 2^53 - 1.  Up to it every integer is a
    double, and sums, differences and products that stay below it are
    exact; [parseInt] and [ToNumber] read a decimal integer of that range
    exactly, and [ToString] prints it in full.  Beyond it JavaScript rounds
    and, past 2^1024, answers [Infinity], which the integers of [number] do
    not follow. *)
Definition MAX_SAFE_INTEGER : Z := 9007199254740991.

(** A valid page request whose numbers stay in the range of exact
    arithmetic: [p * n] is a safe integer, and with it the page, the page
    size and the offset [(p - 1) * n]. *)
Definition safe_page_request (req : Request) (p n : Z) : Prop :=
  valid_page_request req p n /\ p * n <= MAX_SAFE_INTEGER.

(** A record with a description. *)
Definition described_doc : Doc :=
  mkDoc "doc2"
        [("name", VStr "x");
         ("image", VStr "<huge-base64>");
         ("imageUrl", VStr "https://...");
         ("description", VStr "a long story")].

(** A catalogue: every third item is archived, the others active; the even
    ones are books, the odd ones toys. *)
Definition catalog_doc (i : nat) : Doc :=
  mkDoc ("item" ++ NumberToString (Int (Z.of_nat i)))
        [("name", VStr "x");
         ("status", VStr (if Nat.eqb (i mod 3) 0 then "archived" else "active"));
         ("category", VStr (if Nat.even i then "books" else "toys"));
         ("createdAt", VNum (Int (Z.of_nat i)))].

Definition catalog_world (n : nat) : World :=
  mkWorld (fun name =>
             if String.eqb name "items" then map catalog_doc (seq 0 n) else [])
          [].

(** A blog: one user, and 14 posts of which 12 are that user's. *)
Definition blog_post (i : nat) : Doc :=
  mkDoc ("post" ++ NumberToString (Int (Z.of_nat i)))
        [("userId", VStr (if Nat.eqb (i mod 7) 6 then "u2" else "u1"));
         ("title", VStr "t");
         ("createdAt", VNum (Int (Z.of_nat i)));
         ("content", VStr "a long text")].

Definition blog_world : World :=
  mkWorld (fun name =>
             if String.eqb name "users" then
               [mkDoc "u1" [("name", VStr "Ann");
                            ("email", VStr "ann@example.org");
                            ("bio", VStr "a long text")]]
             else if String.eqb name "posts" then map blog_post (seq 0 14)
             else [])
          [].

(* ================================================================== *)
(** * Properties *)
(* ================================================================== *)

(** ** Sanity checks of the embedding *)

Example parseInt_50 : parseInt (PStr "50") = Int 50.
Proof. reflexivity. Qed.

Example parseInt_default : parseInt (PNum (Int 50)) = Int 50.
Proof. reflexivity. Qed.

Example parseInt_suffix : parseInt (PStr " -12px") = Int (-12).
Proof. reflexivity. Qed.

Example parseInt_hex : parseInt (PStr "0x1F") = Int 31.
Proof. reflexivity. Qed.

Example parseInt_none : parseInt (PStr "abc") = NaN.
Proof. reflexivity. Qed.

Example ToNumber_suffix : ToNumber (PStr "12px") = NaN.
Proof. reflexivity. Qed.

Example ToNumber_padded : ToNumber (PStr " 12 ") = Int 12.
Proof. reflexivity. Qed.

Example ToNumber_empty : ToNumber (PStr "") = Int 0.
Proof. reflexivity. Qed.

Example stringify_drops_undefined :
  stringify (VObj [("a", VNum (Int (-5))); ("b", VUndefined);
                   ("c", VArr [VUndefined; VNum NaN; VBool true])])
  = stringify (VObj [("a", VNum (Int (-5)));
                     ("c", VArr [VNull; VNull; VBool true])]).
Proof. reflexivity. Qed.

Example toFixed2_5000000 : toFixed2 (sizeInMB_of 5000000) = "4.77".
Proof. reflexivity. Qed.

(** A concrete request is valid and within the safe integers. *)
Ltac safe_request :=
  split; [ repeat split; try reflexivity; lia | unfold MAX_SAFE_INTEGER; lia ].

(** ** The pagination fix on a valid request *)

Lemma count_of_nonneg (z : Z) :
  0 <= z -> count_of (Some (Int z)) = Ok (Some (Z.to_nat z)).
Proof.
  intros Hz. unfold count_of.
  destruct (Z.ltb_spec z 0) as [Hlt | _]; [lia | reflexivity].
Qed.

Lemma filter_all {A} (l : list A) : filter (fun _ => true) l = l.
Proof. induction l as [| x l IH]; simpl; [ | rewrite IH ]; reflexivity. Qed.

(** Without a filter or an ordering a query selects the whole collection. *)
Lemma selected_plain (db : Db) (q : Query) :
  q_where q = [] -> q_orderBy q = None -> selected db q = db (q_collection q).
Proof.
  intros Hw Ho. unfold selected. rewrite Hw, Ho. simpl. apply filter_all.
Qed.

(** The query of the statements is the one the handler awaits. *)
Lemma handler_good_example_1_awaits (req : Request) :
  handler_good_example_1 req
  = (snapshot <- get (query_good_example_1 req) ;;
     ret (json 200
            (VObj [("items", VArr (map item_of_doc (docs snapshot)));
                   ("page", VNum (parseInt (page_of req)));
                   ("limit", VNum (parseInt (limit_of req)));
                   ("hasMore",
                    VBool (num_strict_eq (size snapshot)
                                         (parseInt (limit_of req))))]))).
Proof. reflexivity. Qed.

Lemma run_good_example_1 (req : Request) (db : Db) (p n : Z) :
  valid_page_request req p n ->
  run db (query_good_example_1 req)
  = Ok (mkSnapshot (page_slice (db "items") p n)).
Proof.
  intros (Hp & _ & Hn & Hp1 & Hn1).
  unfold run, query_good_example_1. cbn [q_limit q_offset Store.offset Store.limit].
  rewrite Hp, Hn. cbn [num_sub num_mul].
  rewrite !count_of_nonneg by nia.
  rewrite selected_plain by reflexivity. reflexivity.
Qed.

Lemma handler_good_example_1_valid (req : Request) (w : World) (p n : Z) :
  valid_page_request req p n ->
  handler_good_example_1 req w
  = (Ok (json 200
           (VObj [("items", VArr (map item_of_doc (page_slice (w_db w "items") p n)));
                  ("page", VNum (Int p));
                  ("limit", VNum (Int n));
                  ("hasMore",
                   VBool (Z.of_nat (List.length (page_slice (w_db w "items") p n))
                          =? n))])),
     w).
Proof.
  intros Hv. pose proof (run_good_example_1 req (w_db w) p n Hv) as Hrun.
  destruct Hv as (_ & Hp & Hn & _).
  unfold page_of, limit_of in Hp, Hn.
  unfold handler_good_example_1, bind, get. cbv zeta.
  change (run (w_db w) _) with (run (w_db w) (query_good_example_1 req)).
  rewrite Hrun. unfold ret. rewrite Hp, Hn. reflexivity.
Qed.

Lemma page_slice_length {A} (l : list A) (p n : Z) :
  0 <= n -> Z.of_nat (List.length (page_slice l p n)) <= n.
Proof.
  intros Hn. unfold page_slice.
  pose proof (firstn_le_length (Z.to_nat n) (skipn (Z.to_nat ((p - 1) * n)) l)).
  lia.
Qed.

(** ** The complete example on a valid request *)

Lemma query_handler_limit_offset (req : Request) :
  q_limit (query_handler req) = Some (parseInt (limit_of req)) /\
  q_offset (query_handler req)
  = Some (num_mul (num_sub (parseInt (page_of req)) (Int 1))
                  (parseInt (limit_of req))).
Proof.
  unfold query_handler, page_of, limit_of.
  destruct (lookup "category" (query req)) as [c |]; [ | split; reflexivity ].
  destruct (truthy (Some c)); split; reflexivity.
Qed.

Lemma run_handler (req : Request) (db : Db) (p n : Z) :
  valid_page_request req p n ->
  run db (query_handler req)
  = Ok (mkSnapshot (page_slice (selected db (query_handler req)) p n)).
Proof.
  intros (_ & Hp & Hn & Hp1 & Hn1).
  destruct (query_handler_limit_offset req) as [Hl Ho].
  unfold run. rewrite Hl, Ho, Hp, Hn. cbn [num_sub num_mul].
  rewrite !count_of_nonneg by nia. reflexivity.
Qed.

Lemma run_total (req : Request) (db : Db) :
  run db (total_query req) = Ok (mkSnapshot (selected db (total_query req))).
Proof. reflexivity. Qed.

Lemma handler_valid (req : Request) (w : World) (p n : Z) :
  method req = "GET" ->
  valid_page_request req p n ->
  let fetched := page_slice (selected (w_db w) (query_handler req)) p n in
  let total := Z.of_nat (List.length (selected (w_db w) (total_query req))) in
  handler req w
  = (Ok (json 200
           (VObj [("items", VArr (map item_handler fetched));
                  ("pagination",
                   VObj [("page", VNum (Int p));
                         ("limit", VNum (Int n));
                         ("total", VNum (Int total));
                         ("totalPages", VNum (Int (- (- total / n))));
                         ("hasMore", VBool (p * n <? total))])])),
     w).
Proof.
  intros Hm Hv fetched total.
  pose proof (run_handler req (w_db w) p n Hv) as Hrun.
  destruct Hv as (_ & Hp & Hn & Hp1 & Hn1).
  unfold page_of, limit_of in Hp, Hn.
  unfold handler. rewrite Hm.
  change (negb ("GET" =? "GET")%string) with false. cbv iota.
  unfold try_catch, bind, get. rewrite Hrun.
  change (where_eq "status" (status_of req) (collection "items"))
    with (total_query req).
  rewrite run_total. unfold ret. rewrite Hp, Hn.
  cbn [size docs num_mul num_lt ceil_div].
  destruct (Z.eqb_spec n 0) as [Hz | _]; [lia | reflexivity].
Qed.

(** ** C1: page sizes above 200 *)

(** C1, as stated, fails: a request for 500 records per page, above the cap
    of 200 the claim speaks of, is answered with status 200 and 500 items;
    the handler has no cap and no [InvalidRequest] error. *)
Lemma pageSize_500_not_rejected :
  200 < 500 /\
  exists items,
    fst (handler_good_example_1 (page_request 1 "500") (sample_world 600))
    = Ok (json 200 (VObj [("items", VArr items);
                          ("page", VNum (Int 1));
                          ("limit", VNum (Int 500));
                          ("hasMore", VBool true)])) /\
    List.length items = 500%nat.
Proof.
  split; [lia | ].
  rewrite (handler_good_example_1_valid _ _ 1 500)
    by (repeat split; try reflexivity; lia).
  eexists. split; [ reflexivity | ].
  vm_compute. reflexivity.
Qed.

(** C1 (amended): the handlers apply no cap to the page size.  A request
    for page [p >= 1] with a page size [n >= 1], also one above 200, whose
    [p * n] is a safe integer, is answered by the pagination handler with
    status 200, the requested page size echoed and the records of that
    page; it is not rejected.  The complete example answers a GET request
    likewise. *)
Theorem pageSize_is_not_capped (req : Request) (w : World) (p n : Z) :
  safe_page_request req p n ->
  (exists r,
      fst (handler_good_example_1 req w) = Ok r /\
      status r = 200 /\
      get_prop "limit" (props (body r)) = VNum (Int n) /\
      get_prop "items" (props (body r))
      = VArr (map item_of_doc (page_slice (w_db w "items") p n))) /\
  (method req = "GET" ->
   exists r,
     fst (handler req w) = Ok r /\
     status r = 200 /\
     get_prop "limit" (props (get_prop "pagination" (props (body r))))
     = VNum (Int n) /\
     get_prop "items" (props (body r))
     = VArr (map item_handler
               (page_slice (selected (w_db w) (query_handler req)) p n))).
Proof.
  intros [Hv _]. split.
  - rewrite (handler_good_example_1_valid req w p n Hv).
    eexists. split; [ reflexivity | ]. repeat split.
  - intros Hm. rewrite (handler_valid req w p n Hm Hv).
    eexists. split; [ reflexivity | ]. repeat split.
Qed.

Lemma pageSize_is_not_capped_witness :
  let req := page_request 1 "500" in
  let w := sample_world 3 in
  (exists r,
      fst (handler_good_example_1 req w) = Ok r /\
      status r = 200 /\
      get_prop "limit" (props (body r)) = VNum (Int 500) /\
      get_prop "items" (props (body r))
      = VArr (map item_of_doc (page_slice (w_db w "items") 1 500))) /\
  (exists r,
      fst (handler req w) = Ok r /\
      status r = 200 /\
      get_prop "limit" (props (get_prop "pagination" (props (body r))))
      = VNum (Int 500) /\
      get_prop "items" (props (body r))
      = VArr (map item_handler
                (page_slice (selected (w_db w) (query_handler req)) 1 500))).
Proof.
  intros req w.
  assert (Hv : safe_page_request req 1 500) by safe_request.
  split.
  - exact (proj1 (pageSize_is_not_capped req w 1 500 Hv)).
  - exact (proj2 (pageSize_is_not_capped req w 1 500 Hv) eq_refl).
Defined.

(** ** C5: a page has at most [pageSize] items *)

(** C5: for every valid page request, its numbers within the safe integers,
    the response of the pagination handler carries at most [pageSize]
    items, and so does the response of the complete example to a GET
    request. *)
Theorem items_length_le_pageSize (req : Request) (w : World) (p n : Z) :
  safe_page_request req p n ->
  (exists r items,
      fst (handler_good_example_1 req w) = Ok r /\
      get_prop "items" (props (body r)) = VArr items /\
      Z.of_nat (List.length items) <= n) /\
  (method req = "GET" ->
   exists r items,
     fst (handler req w) = Ok r /\
     get_prop "items" (props (body r)) = VArr items /\
     Z.of_nat (List.length items) <= n).
Proof.
  intros [Hv _].
  assert (Hn : 0 <= n) by (destruct Hv as (_ & _ & _ & _ & Hn); lia).
  split.
  - rewrite (handler_good_example_1_valid req w p n Hv).
    do 2 eexists. split; [ reflexivity | ]. split; [ reflexivity | ].
    rewrite length_map. apply page_slice_length, Hn.
  - intros Hm. rewrite (handler_valid req w p n Hm Hv).
    do 2 eexists. split; [ reflexivity | ]. split; [ reflexivity | ].
    rewrite length_map. apply page_slice_length, Hn.
Qed.

Lemma items_length_le_pageSize_witness :
  let req := page_request 2 "2" in
  let w := sample_world 5 in
  (exists r items,
      fst (handler_good_example_1 req w) = Ok r /\
      get_prop "items" (props (body r)) = VArr items /\
      Z.of_nat (List.length items) <= 2) /\
  (exists r items,
      fst (handler req w) = Ok r /\
      get_prop "items" (props (body r)) = VArr items /\
      Z.of_nat (List.length items) <= 2).
Proof.
  intros req w.
  assert (Hv : safe_page_request req 2 2) by safe_request.
  split.
  - exact (proj1 (items_length_le_pageSize req w 2 2 Hv)).
  - exact (proj2 (items_length_le_pageSize req w 2 2 Hv) eq_refl).
Defined.

(** ** C7: the offset of a page *)

(** C7: for a request with page [p >= 1] and page size [n >= 1], within the
    safe integers, the pagination handler asks the store for [n] records at
    offset [(p - 1) * n]: its run is the run of that query followed by the
    answer, and its items are the [n] records of the collection that follow
    the first [(p - 1) * n].  The complete example builds its query with the
    same offset, and its items are the [n] records that follow the first
    [(p - 1) * n] of the records its filters select. *)
Theorem offset_is_page_minus_1_times_pageSize
        (req : Request) (w : World) (p n : Z) :
  safe_page_request req p n ->
  (handler_good_example_1 req w
   = (snapshot <-
        get (Store.offset (Int ((p - 1) * n))
               (Store.limit (Int n) (collection "items"))) ;;
      ret (json 200
             (VObj [("items", VArr (map item_of_doc (docs snapshot)));
                    ("page", VNum (Int p));
                    ("limit", VNum (Int n));
                    ("hasMore",
                     VBool (num_strict_eq (size snapshot) (Int n)))]))) w /\
   exists r,
     fst (handler_good_example_1 req w) = Ok r /\
     get_prop "items" (props (body r))
     = VArr (map item_of_doc
               (firstn (Z.to_nat n)
                       (skipn (Z.to_nat ((p - 1) * n)) (w_db w "items"))))) /\
  (method req = "GET" ->
   q_offset (query_handler req) = Some (Int ((p - 1) * n)) /\
   exists r,
     fst (handler req w) = Ok r /\
     get_prop "items" (props (body r))
     = VArr (map item_handler
               (firstn (Z.to_nat n)
                       (skipn (Z.to_nat ((p - 1) * n))
                              (selected (w_db w) (query_handler req)))))).
Proof.
  intros [Hv _]. split; [ split | ].
  - destruct Hv as (Hp & Hp' & Hn & _).
    unfold page_of, limit_of in Hp, Hp', Hn.
    unfold handler_good_example_1, bind, get. cbv zeta.
    rewrite Hp, Hp', Hn. reflexivity.
  - rewrite (handler_good_example_1_valid req w p n Hv).
    eexists. split; reflexivity.
  - intros Hm. split.
    + destruct (query_handler_limit_offset req) as [_ Ho].
      destruct Hv as (_ & Hp & Hn & _). rewrite Ho, Hp, Hn. reflexivity.
    + rewrite (handler_valid req w p n Hm Hv).
      eexists. split; reflexivity.
Qed.

Lemma offset_is_page_minus_1_times_pageSize_witness :
  let req := page_request 3 "50" in
  let w := sample_world 120 in
  (handler_good_example_1 req w
   = (snapshot <-
        get (Store.offset (Int 100)
               (Store.limit (Int 50) (collection "items"))) ;;
      ret (json 200
             (VObj [("items", VArr (map item_of_doc (docs snapshot)));
                    ("page", VNum (Int 3));
                    ("limit", VNum (Int 50));
                    ("hasMore",
                     VBool (num_strict_eq (size snapshot) (Int 50)))]))) w /\
   exists r,
     fst (handler_good_example_1 req w) = Ok r /\
     get_prop "items" (props (body r))
     = VArr (map item_of_doc
               (firstn 50 (skipn 100 (w_db w "items"))))) /\
  (q_offset (query_handler req) = Some (Int 100) /\
   exists r,
     fst (handler req w) = Ok r /\
     get_prop "items" (props (body r))
     = VArr (map item_handler
               (firstn 50
                       (skipn 100
                              (selected (w_db w) (query_handler req)))))).
Proof.
  intros req w.
  assert (Hv : safe_page_request req 3 50) by safe_request.
  split.
  - exact (proj1 (offset_is_page_minus_1_times_pageSize req w 3 50 Hv)).
  - exact (proj2 (offset_is_page_minus_1_times_pageSize req w 3 50 Hv) eq_refl).
Defined.

(** ** C2: how [hasMore] is computed *)




(** The imprecision the heuristic is known for: with 100 records, page 2 of
    size 50 is the last one and still reports [hasMore = true]. *)
Example final_full_page_hasMore_true :
  exists items,
    fst (handler_good_example_1 (page_request 2 "50") (sample_world 100))
    = Ok (json 200 (VObj [("items", VArr items);
                          ("page", VNum (Int 2));
                          ("limit", VNum (Int 50));
                          ("hasMore", VBool true)])) /\
    List.length items = 50%nat.
Proof.
  rewrite (handler_good_example_1_valid _ _ 2 50)
    by (repeat split; try reflexivity; lia).
  eexists. split; [ reflexivity | vm_compute; reflexivity ].
Qed.

(** ** Byte lengths *)

Lemma byteLength_nonneg (s : string) : 0 <= byteLength s.
Proof.
  induction s as [| c s IH]; simpl; [ lia | ].
  destruct (code c <? 128)%N; lia.
Qed.

Lemma byteLength_app (a b : string) :
  byteLength (a ++ b) = byteLength a + byteLength b.
Proof.
  induction a as [| c a IH]; simpl; [ reflexivity | rewrite IH; lia ].
Qed.

Lemma byteLength_concat_snoc (sep : string) (xs : list string) (x : string) :
  byteLength (String.concat sep (xs ++ [x]))
  = byteLength (String.concat sep xs)
    + (match xs with [] => 0 | _ => byteLength sep end)
    + byteLength x.
Proof.
  induction xs as [| y ys IH]; [ simpl; lia | ].
  destruct ys as [| z zs].
  - simpl. rewrite !byteLength_app. lia.
  - change (String.concat sep ((y :: z :: zs) ++ [x]))
      with (y ++ sep ++ String.concat sep ((z :: zs) ++ [x])).
    change (String.concat sep (y :: z :: zs))
      with (y ++ sep ++ String.concat sep (z :: zs)).
    rewrite !byteLength_app, IH. lia.
Qed.

Lemma byteLength_concat_cons (sep x : string) (xs : list string) :
  byteLength (String.concat sep (x :: xs))
  = byteLength x
    + (match xs with
       | [] => 0
       | _ => byteLength sep + byteLength (String.concat sep xs)
       end).
Proof.
  destruct xs as [| y ys]; [ simpl; lia | ].
  change (String.concat sep (x :: y :: ys))
    with (x ++ sep ++ String.concat sep (y :: ys)).
  rewrite !byteLength_app. lia.
Qed.

(** The serialized size of [blob n]: [n] letters and two quotes. *)
Lemma escape_letters (n : N) :
  escape (N.iter n (String "a") "") = N.iter n (String "a") "".
Proof.
  induction n as [| n IH] using N.peano_ind; [ reflexivity | ].
  rewrite N.iter_succ. simpl. rewrite IH. reflexivity.
Qed.

Lemma byteLength_letters (n : N) :
  byteLength (N.iter n (String "a") "") = Z.of_N n.
Proof.
  induction n as [| n IH] using N.peano_ind; [ reflexivity | ].
  rewrite N.iter_succ, N2Z.inj_succ. cbn [byteLength]. rewrite IH.
  change (code "a" <? 128)%N with true. lia.
Qed.

Lemma blob_size (n : N) :
  exists s, stringify (blob n) = Some s /\ byteLength s = Z.of_N n + 2.
Proof.
  eexists. split; [ reflexivity | ].
  unfold quote. rewrite escape_letters.
  change (byteLength (String dquote (N.iter n (String "a") "" ++ String dquote "")))
    with (1 + byteLength (N.iter n (String "a") "" ++ String dquote "")).
  rewrite byteLength_app, byteLength_letters.
  change (byteLength (String dquote "")) with 1. lia.
Qed.

(** ** The size check *)

(** [sizeInMB > 4.5] holds exactly above 4.5 * 1024 * 1024 bytes. *)
Lemma over_limit_bytes (b : Z) :
  over_limit (sizeInMB_of b) = (4718592 <? b).
Proof.
  unfold over_limit, sizeInMB_of, Qle_bool. cbn.
  destruct (Z.leb_spec (b * 1 * 2) 9437184), (Z.ltb_spec 4718592 b);
    simpl; solve [ reflexivity | lia ].
Qed.

Lemma checkResponseSize_run (data : value) (s : string) (w : World) :
  stringify data = Some s ->
  checkResponseSize data w
  = (Ok (sizeInMB_of (byteLength s)),
     mkWorld (w_db w)
             ((w_console w ++ [size_log (byteLength s)])
                ++ (if 4718592 <? byteLength s then [size_warning] else []))).
Proof.
  intros Hs. unfold checkResponseSize, bind, lift. rewrite Hs.
  cbn [Buffer_byteLength console w_db w_console].
  rewrite over_limit_bytes.
  destruct (4718592 <? byteLength s); cbn; rewrite ?app_nil_r; reflexivity.
Qed.

(** ** C3: the threshold of the size check *)

(** C3, as stated, fails: a result of 4,600,000 bytes is above 4,500,000
    bytes and is not flagged; the only console event is the size log. *)
Lemma size_4600000_not_flagged :
  exists s,
    stringify (blob 4599998) = Some s /\
    byteLength s = 4600000 /\
    4500000 < byteLength s /\
    checkResponseSize (blob 4599998) (sample_world 0)
    = (Ok (sizeInMB_of 4600000),
       mkWorld (sample_db 0) [size_log 4600000]).
Proof.
  destruct (blob_size 4599998) as (s & Hs & Hb).
  change (Z.of_N 4599998 + 2) with 4600000 in Hb.
  exists s. split; [ exact Hs | ]. split; [ exact Hb | ]. split; [ lia | ].
  rewrite (checkResponseSize_run _ s _ Hs), Hb. reflexivity.
Qed.

(** C3 (amended): [checkResponseSize] measures the UTF-8 byte length of the
    serialized result, divides it by 1024 * 1024 and warns when the quotient
    is above 4.5, that is above 4,718,592 bytes: it returns the size in
    megabytes, logs it, and adds the warning exactly when the byte length
    exceeds 4,718,592.  A result whose serialized size is 5,000,000 bytes is
    flagged. *)
Theorem size_check_threshold (data : value) (s : string) (w : World) :
  stringify data = Some s ->
  checkResponseSize data w
  = (Ok (sizeInMB_of (byteLength s)),
     mkWorld (w_db w)
             ((w_console w ++ [size_log (byteLength s)])
                ++ (if 4718592 <? byteLength s then [size_warning] else [])))
  /\ (byteLength s = 5000000 ->
      In size_warning (w_console (snd (checkResponseSize data w)))).
Proof.
  intros Hs. pose proof (checkResponseSize_run data s w Hs) as Hrun.
  split; [ exact Hrun | ].
  intros Hb. rewrite Hrun, Hb. cbn [snd w_console].
  apply in_or_app. right. left. reflexivity.
Qed.

Lemma size_check_threshold_witness :
  exists s,
    stringify (blob 4999998) = Some s /\
    byteLength s = 5000000 /\
    In size_warning
       (w_console (snd (checkResponseSize (blob 4999998) (sample_world 0)))).
Proof.
  destruct (blob_size 4999998) as (s & Hs & Hb).
  change (Z.of_N 4999998 + 2) with 5000000 in Hb.
  exists s. split; [ exact Hs | ]. split; [ exact Hb | ].
  exact (proj2 (size_check_threshold (blob 4999998) s (sample_world 0) Hs) Hb).
Defined.

(** ** C9: the size grows with the number of records *)

(** The serialized size of a body is a constant, fixed by the other
    properties, plus the size of the texts of its items. *)
Lemma page_body_size (rest : object) :
  exists k,
    forall items,
    exists s,
      stringify (page_body items rest) = Some s /\
      byteLength s
      = k + byteLength (String.concat "," (map element_text items)).
Proof.
  exists (1 + (byteLength (quote "items") + 3)
          + (match property_texts rest with
             | [] => 0
             | _ => 1 + byteLength (String.concat "," (property_texts rest))
             end) + 1).
  intros items. eexists. split; [ reflexivity | ].
  change (flat_map _ (("items", VArr items) :: rest))
    with ((quote "items" ++ ":" ++
           ("[" ++ String.concat "," (map element_text items) ++ "]"))
            :: property_texts rest).
  rewrite !byteLength_app, byteLength_concat_cons, !byteLength_app.
  change (byteLength "{") with 1. change (byteLength "}") with 1.
  change (byteLength ":") with 1. change (byteLength ",") with 1.
  change (byteLength "[") with 1. change (byteLength "]") with 1.
  destruct (property_texts rest); lia.
Qed.

Lemma sizeInMB_of_mono (a b : Z) :
  a <= b -> (sizeInMB_of a <= sizeInMB_of b)%Q.
Proof.
  intros Hab. unfold sizeInMB_of, Qle. cbn. lia.
Qed.

(** C9: adding a record to the items of a response body does not decrease
    the size [checkResponseSize] reports, in bytes and in megabytes alike;
    the other properties of the body stay as they are. *)
Theorem size_monotone_in_records
        (items : list value) (r : value) (rest : object) (w : World) :
  exists s1 s2,
    stringify (page_body items rest) = Some s1 /\
    stringify (page_body (items ++ [r]) rest) = Some s2 /\
    byteLength s1 <= byteLength s2 /\
    fst (checkResponseSize (page_body items rest) w)
    = Ok (sizeInMB_of (byteLength s1)) /\
    fst (checkResponseSize (page_body (items ++ [r]) rest) w)
    = Ok (sizeInMB_of (byteLength s2)) /\
    (sizeInMB_of (byteLength s1) <= sizeInMB_of (byteLength s2))%Q.
Proof.
  destruct (page_body_size rest) as (k & Hk).
  destruct (Hk items) as (s1 & Hs1 & Hb1).
  destruct (Hk (items ++ [r])%list) as (s2 & Hs2 & Hb2).
  assert (Hle : byteLength s1 <= byteLength s2).
  { rewrite Hb1, Hb2, map_app. cbn [map].
    rewrite byteLength_concat_snoc.
    pose proof (byteLength_nonneg (element_text r)).
    change (byteLength ",") with 1.
    destruct (map element_text items); lia. }
  exists s1, s2. repeat split; try assumption.
  - rewrite (checkResponseSize_run _ s1 w Hs1). reflexivity.
  - rewrite (checkResponseSize_run _ s2 w Hs2). reflexivity.
  - apply sizeInMB_of_mono, Hle.
Qed.

(** ** C4: the fields of a projected record *)

(** C4, as stated, fails: the handler has one fixed projection, and on the
    record [{name, image, imageUrl}] it yields a record with the fields
    [id], [name], [category], [imageUrl] and [shortDescription], which is
    sent as [{id, name, imageUrl}]: not exactly [{name, imageUrl}]. *)
Lemma scenario_projection_has_id :
  exists v,
    project_doc scenario_doc = Ok v /\
    keys (props v) = projected_fields /\
    has_prop "image" (props v) = false /\
    stringify v
    = stringify (VObj [("id", VStr "doc1");
                       ("name", VStr "x");
                       ("imageUrl", VStr "https://...")]) /\
    v <> VObj [("name", VStr "x"); ("imageUrl", VStr "https://...")] /\
    stringify v
    <> stringify (VObj [("name", VStr "x"); ("imageUrl", VStr "https://...")]).
Proof.
  eexists. split; [ reflexivity | ].
  repeat split; try reflexivity.
  - discriminate.
  - vm_compute. discriminate.
Qed.

Lemma get_prop_absent (k : string) (o : object) :
  has_prop k o = false -> get_prop k o = VUndefined.
Proof.
  induction o as [| [k' v] o IH]; simpl; [ reflexivity | ].
  destruct (String.eqb k k'); simpl; [ discriminate | exact IH ].
Qed.

Lemma has_prop_keys (k : string) (o : object) :
  has_prop k o = true -> In k (keys o).
Proof.
  induction o as [| [k' v] o IH]; simpl; [ discriminate | ].
  destruct (String.eqb_spec k k') as [-> | _]; simpl; auto.
Qed.

(** C4 (amended): the projection of [handler_good_example_2] is fixed.  For
    every fetched record whose [description] is absent, [null] or a string,
    the projected record has exactly the fields [id], [name], [category],
    [imageUrl] and [shortDescription], in this order: [id] is the document
    id, [name], [category] and [imageUrl] are copied, [shortDescription] is
    the first 200 code units of a [description] that is a string and
    [undefined] otherwise, and every other field of the record, such as
    [image], is dropped. *)
Theorem projection_has_fixed_fields (doc : Doc) :
  nullish_or_string (get_prop "description" (doc_data doc)) = true ->
  exists o,
    project_doc doc = Ok (VObj o) /\
    keys o = projected_fields /\
    (forall k, has_prop k o = true -> In k projected_fields) /\
    has_prop "image" o = false /\
    get_prop "id" o = VStr (doc_id doc) /\
    get_prop "name" o = get_prop "name" (doc_data doc) /\
    get_prop "category" o = get_prop "category" (doc_data doc) /\
    get_prop "imageUrl" o = get_prop "imageUrl" (doc_data doc) /\
    get_prop "shortDescription" o
    = match get_prop "description" (doc_data doc) with
      | VStr s => VStr (String.substring 0 200 s)
      | _ => VUndefined
      end.
Proof.
  intros Hd. unfold project_doc.
  destruct (get_prop "description" (doc_data doc)) eqn:Hdesc;
    try discriminate Hd; cbn [shortDescription_of];
    (eexists; split; [ reflexivity | ];
     split; [ reflexivity | ];
     split; [ intros k Hk; apply has_prop_keys in Hk; exact Hk
            | repeat split ]).
Qed.

Lemma projection_has_fixed_fields_witness :
  exists o,
    project_doc described_doc = Ok (VObj o) /\
    keys o = projected_fields /\
    (forall k, has_prop k o = true -> In k projected_fields) /\
    has_prop "image" o = false /\
    get_prop "id" o = VStr "doc2" /\
    get_prop "name" o = VStr "x" /\
    get_prop "category" o = VUndefined /\
    get_prop "imageUrl" o = VStr "https://..." /\
    get_prop "shortDescription" o = VStr "a long story".
Proof.
  apply (projection_has_fixed_fields described_doc). reflexivity.
Defined.

(** ** C10: records without a description *)

Lemma projection_total (doc : Doc) :
  has_prop "description" (doc_data doc) = false ->
  project_doc doc
  = Ok (VObj [("id", VStr (doc_id doc));
              ("name", get_prop "name" (doc_data doc));
              ("category", get_prop "category" (doc_data doc));
              ("imageUrl", get_prop "imageUrl" (doc_data doc));
              ("shortDescription", VUndefined)]).
Proof.
  intros Hd. unfold project_doc.
  rewrite (get_prop_absent _ _ Hd). reflexivity.
Qed.

(** C10: for every fetched record that has no [description] field the
    projection completes without an error, and the [shortDescription] of
    the projected record is [undefined]. *)
Theorem projection_without_description (doc : Doc) :
  has_prop "description" (doc_data doc) = false ->
  project_doc doc
  = Ok (VObj [("id", VStr (doc_id doc));
              ("name", get_prop "name" (doc_data doc));
              ("category", get_prop "category" (doc_data doc));
              ("imageUrl", get_prop "imageUrl" (doc_data doc));
              ("shortDescription", VUndefined)])
  /\ (forall v, project_doc doc = Ok v ->
                get_prop "shortDescription" (props v) = VUndefined).
Proof.
  intros Hd. split.
  - exact (projection_total doc Hd).
  - intros v Hv. rewrite (projection_total doc Hd) in Hv.
    injection Hv as <-. reflexivity.
Qed.

Lemma projection_without_description_witness :
  project_doc scenario_doc
  = Ok (VObj [("id", VStr (doc_id scenario_doc));
              ("name", get_prop "name" (doc_data scenario_doc));
              ("category", get_prop "category" (doc_data scenario_doc));
              ("imageUrl", get_prop "imageUrl" (doc_data scenario_doc));
              ("shortDescription", VUndefined)])
  /\ (forall v, project_doc scenario_doc = Ok v ->
                get_prop "shortDescription" (props v) = VUndefined).
Proof.
  apply (projection_without_description scenario_doc). reflexivity.
Defined.

Lemma In_page_slice {A} (l : list A) (p n : Z) (x : A) :
  In x (page_slice l p n) -> In x l.
Proof.
  unfold page_slice.
  generalize (Z.to_nat ((p - 1) * n)) as k, (Z.to_nat n) as m.
  intros k m Hin.
  assert (Hs : In x (skipn k l)).
  { revert Hin. generalize (skipn k l) as r. revert m.
    induction m as [| m IH]; intros [| y r]; simpl; try tauto.
    intros [-> | Hin]; [ left; reflexivity | right; apply IH; exact Hin ]. }
  revert Hs. clear Hin. revert l.
  induction k as [| k IH]; intros [| y l]; simpl; try tauto.
  intros Hin. right. apply IH. exact Hin.
Qed.

(** On a page of records without a description the whole handler answers
    with status 200. *)
Lemma map_result_project (l : list Doc) :
  (forall d, In d l -> has_prop "description" (doc_data d) = false) ->
  exists items,
    map_result project_doc l = Ok items /\
    List.length items = List.length l /\
    Forall (fun v => get_prop "shortDescription" (props v) = VUndefined) items.
Proof.
  induction l as [| d l IH]; intros Hl.
  - exists []. repeat split. constructor.
  - destruct IH as (items & Hitems & Hlen & Hall).
    { intros x Hx. apply Hl. right. exact Hx. }
    cbn [map_result].
    rewrite (projection_total d) by (apply Hl; left; reflexivity).
    rewrite Hitems. eexists. split; [ reflexivity | ].
    split; [ cbn [List.length]; rewrite Hlen; reflexivity | ].
    constructor; [ reflexivity | exact Hall ].
Qed.

Lemma handler_good_example_2_without_descriptions
      (req : Request) (w : World) (p n : Z) :
  valid_page_request req p n ->
  (forall d, In d (w_db w "items") ->
             has_prop "description" (doc_data d) = false) ->
  exists items,
    handler_good_example_2 req w
    = (Ok (json 200 (VObj [("items", VArr items); ("page", VNum (Int p))])), w)
    /\ Z.of_nat (List.length items) <= n
    /\ Forall (fun v => get_prop "shortDescription" (props v) = VUndefined)
              items.
Proof.
  intros Hv Hd.
  pose proof (run_good_example_1 req (w_db w) p n Hv) as Hrun.
  destruct (map_result_project (page_slice (w_db w "items") p n))
    as (items & Hitems & Hlen & Hall).
  { intros d Hin. apply Hd. apply In_page_slice in Hin. exact Hin. }
  exists items. split; [ | split; [ | exact Hall ] ].
  - destruct Hv as (_ & Hp & _).
    unfold page_of in Hp.
    unfold handler_good_example_2, bind, get, lift. cbv zeta.
    change (run (w_db w) _) with (run (w_db w) (query_good_example_1 req)).
    rewrite Hrun. cbn [docs]. rewrite Hitems. unfold ret. rewrite Hp.
    reflexivity.
  - rewrite Hlen. apply page_slice_length.
    destruct Hv as (_ & _ & _ & _ & Hn). lia.
Qed.

(** A description that is neither absent nor a string makes the projection
    throw: the optional chaining guards the receiver only. *)
Example projection_throws_on_number :
  project_doc (mkDoc "doc2" [("description", VNum (Int 7))])
  = Throw (TypeError "data.description?.substring is not a function").
Proof. reflexivity. Qed.

(** ** C8: repeating a request *)

(** The answer of the store depends on the queried collection only. *)
Lemma run_ext (db db' : Db) (q : Query) :
  db' (q_collection q) = db (q_collection q) -> run db' q = run db q.
Proof.
  intros H. unfold run, selected. rewrite H. reflexivity.
Qed.

Lemma query_handler_collection (req : Request) :
  q_collection (query_handler req) = "items".
Proof.
  unfold query_handler.
  destruct (lookup "category" (query req)) as [c |]; [ | reflexivity ].
  destruct (truthy (Some c)); reflexivity.
Qed.

(** C8: a call of the pagination handler, or of the complete example,
    leaves the backing store as it found it, and two calls with the same
    request against stores that hold the same [items] return the same
    response: the same items in the same order, the same [hasMore], page and
    total.  In particular the call repeated after the first one returns what
    the first returned. *)
Theorem same_request_same_response (req : Request) (w w' : World) :
  w_db w' "items" = w_db w "items" ->
  (fst (handler_good_example_1 req w') = fst (handler_good_example_1 req w) /\
   fst (handler req w') = fst (handler req w)) /\
  (w_db (snd (handler_good_example_1 req w)) = w_db w /\
   w_db (snd (handler req w)) = w_db w) /\
  (fst (handler_good_example_1 req (snd (handler_good_example_1 req w)))
   = fst (handler_good_example_1 req w) /\
   fst (handler req (snd (handler req w))) = fst (handler req w)).
Proof.
  intros Hdb.
  assert (H1 : forall a b : World,
             w_db a "items" = w_db b "items" ->
             fst (handler_good_example_1 req a)
             = fst (handler_good_example_1 req b)).
  { intros a b Hab. unfold handler_good_example_1, bind, get. cbv zeta.
    rewrite (run_ext (w_db b) (w_db a)) by exact Hab.
    destruct (run (w_db b) _); reflexivity. }
  assert (H2 : forall a b : World,
             w_db a "items" = w_db b "items" ->
             fst (handler req a) = fst (handler req b)).
  { intros a b Hab. unfold handler.
    destruct (negb (method req =? "GET")%string); [ reflexivity | ].
    unfold try_catch, bind, get.
    rewrite (run_ext (w_db b) (w_db a) (query_handler req))
      by (rewrite query_handler_collection; exact Hab).
    rewrite (run_ext (w_db b) (w_db a) (where_eq _ _ _)) by exact Hab.
    destruct (run (w_db b) (query_handler req)); [ | reflexivity ].
    destruct (run (w_db b) (where_eq _ _ _)); reflexivity. }
  assert (K1 : w_db (snd (handler_good_example_1 req w)) = w_db w).
  { unfold handler_good_example_1, bind, get. cbv zeta.
    destruct (run (w_db w) _); reflexivity. }
  assert (K2 : w_db (snd (handler req w)) = w_db w).
  { unfold handler.
    destruct (negb (method req =? "GET")%string); [ reflexivity | ].
    unfold try_catch, bind, get.
    destruct (run (w_db w) (query_handler req)); [ | reflexivity ].
    destruct (run (w_db w) (where_eq _ _ _)); reflexivity. }
  repeat split; auto.
  - apply H1. rewrite K1. reflexivity.
  - apply H2. rewrite K2. reflexivity.
Qed.

Lemma same_request_same_response_witness :
  let req := page_request 2 "2" in
  let w := sample_world 5 in
  let w' := mkWorld (sample_db 5) [size_warning] in
  (fst (handler_good_example_1 req w') = fst (handler_good_example_1 req w) /\
   fst (handler req w') = fst (handler req w)) /\
  (w_db (snd (handler_good_example_1 req w)) = w_db w /\
   w_db (snd (handler req w)) = w_db w) /\
  (fst (handler_good_example_1 req (snd (handler_good_example_1 req w)))
   = fst (handler_good_example_1 req w) /\
   fst (handler req (snd (handler req w))) = fst (handler req w)).
Proof.
  intros req w w'.
  apply (same_request_same_response req w w'). reflexivity.
Defined.

(** ** Printing a page number and reading it back *)

Ltac eval_digit :=
  match goal with
  | |- context [digit_val 10 ?c] =>
      let v := eval vm_compute in (digit_val 10 c) in
      change (digit_val 10 c) with v
  end.

Lemma parse_all_digits (d : Decimal.uint) (acc : N) :
  parse_all 10 (NilEmpty.string_of_uint d) acc = Some (digits_value d acc).
Proof.
  revert acc.
  induction d; intros acc;
    cbn [NilEmpty.string_of_uint parse_all digits_value];
    [ reflexivity | eval_digit; cbv iota; rewrite IHd .. ];
    rewrite ?N.add_0_r; reflexivity.
Qed.

Lemma parse_prefix_digits (d : Decimal.uint) (acc : N) :
  parse_prefix 10 (NilEmpty.string_of_uint d) (Some acc)
  = Some (digits_value d acc).
Proof.
  revert acc.
  induction d; intros acc;
    cbn [NilEmpty.string_of_uint parse_prefix digits_value];
    [ reflexivity | eval_digit; cbv iota; rewrite IHd .. ];
    rewrite ?N.add_0_r; reflexivity.
Qed.

Lemma digits_value_acc (d : Decimal.uint) (a : positive) :
  digits_value d (Npos a) = Npos (Pos.of_uint_acc d a).
Proof.
  revert a.
  induction d; intros a; cbn [digits_value Pos.of_uint_acc];
    [ reflexivity | rewrite <- IHd; f_equal; lia .. ].
Qed.

Lemma digits_value_of_uint (d : Decimal.uint) :
  digits_value d 0 = Pos.of_uint d.
Proof.
  induction d; cbn [digits_value Pos.of_uint];
    [ reflexivity | exact IHd | apply digits_value_acc .. ].
Qed.

(** A sequence of digits is read back as its value by [parseInt] and by
    [ToNumber]. *)
Lemma parseInt_digits (d : Decimal.uint) :
  d <> Decimal.Nil ->
  parseInt_string (NilEmpty.string_of_uint d)
  = Int (Z.of_N (digits_value d 0)).
Proof.
  intros Hd.
  assert (H : parseInt_string (NilEmpty.string_of_uint d)
              = match parse_prefix 10 (NilEmpty.string_of_uint d) None with
                | Some m => signed false m
                | None => NaN
                end).
  { destruct d as [| d | d | d | d | d | d | d | d | d | d];
      try reflexivity; destruct d; reflexivity. }
  rewrite H.
  assert (H' : parse_prefix 10 (NilEmpty.string_of_uint d) None
               = parse_prefix 10 (NilEmpty.string_of_uint d) (Some 0%N)).
  { destruct d; [ congruence | reflexivity .. ]. }
  rewrite H', parse_prefix_digits. reflexivity.
Qed.

Lemma trim_end_digits (d : Decimal.uint) :
  trim_end (NilEmpty.string_of_uint d) = NilEmpty.string_of_uint d.
Proof.
  induction d; cbn [NilEmpty.string_of_uint trim_end];
    [ reflexivity | rewrite IHd; destruct d; reflexivity .. ].
Qed.

Lemma StringToNumber_digits (d : Decimal.uint) :
  d <> Decimal.Nil ->
  StringToNumber (NilEmpty.string_of_uint d)
  = Int (Z.of_N (digits_value d 0)).
Proof.
  intros Hd. unfold StringToNumber.
  assert (Ht : trim_start (NilEmpty.string_of_uint d)
               = NilEmpty.string_of_uint d)
    by (destruct d; reflexivity).
  rewrite Ht, trim_end_digits.
  cbv zeta.
  transitivity (match parse_all 10 (NilEmpty.string_of_uint d) 0 with
                | Some m => signed false m
                | None => NaN
                end).
  { destruct d as [| d | d | d | d | d | d | d | d | d | d];
      try congruence; try reflexivity; destruct d; reflexivity. }
  rewrite parse_all_digits. reflexivity.
Qed.

Lemma NumberToString_pos (p : positive) :
  NumberToString (Int (Zpos p)) = NilEmpty.string_of_uint (Pos.to_uint p).
Proof.
  cbn [NumberToString Z.to_int NilZero.string_of_int].
  unfold NilZero.string_of_uint.
  pose proof (DecimalPos.Unsigned.to_uint_nonnil p) as Hn.
  destruct (Pos.to_uint p); [ congruence | reflexivity .. ].
Qed.

(** A page number printed in decimal is read back by both conversions. *)
Lemma page_number_roundtrip (p : Z) :
  1 <= p ->
  ToNumber (PStr (NumberToString (Int p))) = Int p /\
  parseInt (PStr (NumberToString (Int p))) = Int p.
Proof.
  intros Hp. destruct p as [| q | q]; try lia.
  unfold ToNumber, parseInt, ToString.
  rewrite NumberToString_pos.
  pose proof (DecimalPos.Unsigned.to_uint_nonnil q) as Hn.
  rewrite (StringToNumber_digits _ Hn), (parseInt_digits _ Hn).
  rewrite digits_value_of_uint, DecimalPos.Unsigned.of_to.
  split; reflexivity.
Qed.

Lemma page_request_valid (p : Z) (limit : string) (n : Z) :
  1 <= p -> parseInt (PStr limit) = Int n -> 1 <= n ->
  valid_page_request (page_request p limit) p n.
Proof.
  intros Hp Hl Hn. destruct (page_number_roundtrip p Hp) as [H1 H2].
  repeat split; assumption.
Qed.

(** ** C6: paging through the whole collection *)





(** The scenario of the specification: 120 records, page size 50. *)
Example scenario_120_records :
  (exists items,
      fst (handler_good_example_1 (page_request 1 "50") (sample_world 120))
      = Ok (json 200 (VObj [("items", VArr items);
                            ("page", VNum (Int 1));
                            ("limit", VNum (Int 50));
                            ("hasMore", VBool true)])) /\
      List.length items = 50%nat) /\
  (exists items,
      fst (handler_good_example_1 (page_request 3 "50") (sample_world 120))
      = Ok (json 200 (VObj [("items", VArr items);
                            ("page", VNum (Int 3));
                            ("limit", VNum (Int 50));
                            ("hasMore", VBool false)])) /\
      List.length items = 20%nat).
Proof.
  split.
  - rewrite (handler_good_example_1_valid _ _ 1 50)
      by (repeat split; try reflexivity; lia).
    eexists. split; [ reflexivity | vm_compute; reflexivity ].
  - rewrite (handler_good_example_1_valid _ _ 3 50)
      by (repeat split; try reflexivity; lia).
    eexists. split; [ reflexivity | vm_compute; reflexivity ].
Qed.

(* ================================================================== *)
(** * Further properties of the examples *)
(* ================================================================== *)

(** ** Objects: assignment, lookup and the spread *)

Lemma has_prop_absent (k : string) (o : object) :
  ~ In k (keys o) -> has_prop k o = false.
Proof.
  induction o as [| [k' v] o IH]; simpl; intros Hn; [ reflexivity | ].
  destruct (String.eqb_spec k k') as [-> | _]; simpl.
  - exfalso. apply Hn. left. reflexivity.
  - apply IH. intros Hin. apply Hn. right. exact Hin.
Qed.

Lemma get_prop_set_same (k : string) (v : value) (o : object) :
  get_prop k (set_prop k v o) = v.
Proof.
  induction o as [| [k' v'] o IH]; simpl.
  - rewrite String.eqb_refl. reflexivity.
  - destruct (String.eqb_spec k k') as [-> | Hne]; simpl.
    + rewrite String.eqb_refl. reflexivity.
    + destruct (String.eqb_spec k k'); [ contradiction | exact IH ].
Qed.

Lemma get_prop_set_other (k k' : string) (v : value) (o : object) :
  k' <> k -> get_prop k' (set_prop k v o) = get_prop k' o.
Proof.
  intros Hne. induction o as [| [k0 v0] o IH]; simpl.
  - destruct (String.eqb_spec k' k); [ contradiction | reflexivity ].
  - destruct (String.eqb_spec k k0) as [-> | Hk]; simpl.
    + destruct (String.eqb_spec k' k0); [ contradiction | reflexivity ].
    + destruct (String.eqb_spec k' k0); [ reflexivity | exact IH ].
Qed.

Lemma has_prop_set (k k' : string) (v : value) (o : object) :
  has_prop k' (set_prop k v o) = (String.eqb k' k || has_prop k' o)%bool.
Proof.
  induction o as [| [k0 v0] o IH]; simpl.
  - reflexivity.
  - destruct (String.eqb_spec k k0) as [-> | Hk]; simpl.
    + destruct (String.eqb k' k0); reflexivity.
    + rewrite IH.
      destruct (String.eqb k' k0), (String.eqb k' k); reflexivity.
Qed.

Lemma has_prop_spread (k : string) (o src : object) :
  has_prop k (spread o src) = (has_prop k o || has_prop k src)%bool.
Proof.
  unfold spread. revert o.
  induction src as [| [k1 v1] src IH]; intros o; simpl.
  - rewrite orb_false_r. reflexivity.
  - rewrite IH, has_prop_set.
    destruct (String.eqb k k1), (has_prop k o), (has_prop k src); reflexivity.
Qed.

Lemma get_prop_spread (k : string) (o src : object) :
  NoDup (keys src) ->
  get_prop k (spread o src)
  = if has_prop k src then get_prop k src else get_prop k o.
Proof.
  unfold spread. revert o.
  induction src as [| [k1 v1] src IH]; intros o Hnd; simpl.
  - reflexivity.
  - inversion Hnd as [| ? ? Hnotin Hnd']; subst.
    rewrite (IH _ Hnd').
    destruct (String.eqb_spec k k1) as [-> | Hne]; simpl.
    + rewrite (has_prop_absent _ _ Hnotin). apply get_prop_set_same.
    + destruct (has_prop k src); [ reflexivity | ].
      apply get_prop_set_other. exact Hne.
Qed.

(** X1: an item of the pagination handler keeps every field of the stored
    record with its value; its [id] is the document id unless the record has
    a field [id] of its own, which then takes its place; and it has no other
    field. *)
Theorem item_of_doc_fields (doc : Doc) :
  NoDup (keys (doc_data doc)) ->
  (forall k, has_prop k (doc_data doc) = true ->
             get_prop k (props (item_of_doc doc)) = get_prop k (doc_data doc)) /\
  (has_prop "id" (doc_data doc) = false ->
   get_prop "id" (props (item_of_doc doc)) = VStr (doc_id doc)) /\
  (forall k, has_prop k (props (item_of_doc doc))
             = (String.eqb k "id" || has_prop k (doc_data doc))%bool).
Proof.
  intros Hnd. unfold item_of_doc. cbn [props]. repeat split.
  - intros k Hk. rewrite (get_prop_spread _ _ _ Hnd), Hk. reflexivity.
  - intros Hid. rewrite (get_prop_spread _ _ _ Hnd), Hid. reflexivity.
  - intros k. rewrite has_prop_spread. cbn [has_prop].
    rewrite orb_false_r. reflexivity.
Qed.

Lemma item_of_doc_fields_witness :
  let doc := mkDoc "doc7" [("id", VStr "own"); ("name", VStr "x")] in
  (forall k, has_prop k (doc_data doc) = true ->
             get_prop k (props (item_of_doc doc)) = get_prop k (doc_data doc)) /\
  (has_prop "id" (doc_data doc) = false ->
   get_prop "id" (props (item_of_doc doc)) = VStr (doc_id doc)) /\
  (forall k, has_prop k (props (item_of_doc doc))
             = (String.eqb k "id" || has_prop k (doc_data doc))%bool).
Proof.
  intros doc. apply (item_of_doc_fields doc).
  repeat constructor; simpl; intuition discriminate.
Defined.

(** ** The pagination handler at the edges *)

(** X2: a request that carries neither [page] nor [limit] is answered with
    page 1 in pages of 50: the first 50 records of the collection, fewer
    when it has fewer. *)
Theorem handler_good_example_1_defaults (req : Request) (w : World) :
  lookup "page" (query req) = None ->
  lookup "limit" (query req) = None ->
  fst (handler_good_example_1 req w)
  = Ok (json 200
          (VObj [("items",
                  VArr (map item_of_doc (firstn 50 (w_db w "items"))));
                 ("page", VNum (Int 1));
                 ("limit", VNum (Int 50));
                 ("hasMore",
                  VBool (Z.of_nat (List.length (firstn 50 (w_db w "items")))
                         =? 50))])).
Proof.
  intros Hpage Hlimit.
  assert (Hv : valid_page_request req 1 50).
  { unfold valid_page_request, page_of, limit_of, destructure.
    rewrite Hpage, Hlimit. repeat split; try reflexivity; lia. }
  rewrite (handler_good_example_1_valid req w 1 50 Hv). reflexivity.
Qed.

Lemma handler_good_example_1_defaults_witness :
  let req := mkRequest "GET" [("sort", "name")] in
  let w := sample_world 60 in
  fst (handler_good_example_1 req w)
  = Ok (json 200
          (VObj [("items",
                  VArr (map item_of_doc (firstn 50 (w_db w "items"))));
                 ("page", VNum (Int 1));
                 ("limit", VNum (Int 50));
                 ("hasMore",
                  VBool (Z.of_nat (List.length (firstn 50 (w_db w "items")))
                         =? 50))])).
Proof.
  intros req w. apply (handler_good_example_1_defaults req w); reflexivity.
Defined.

Lemma empty_page_run (req : Request) (w : World) (p n : Z) :
  valid_page_request req p n ->
  Z.of_nat (List.length (w_db w "items")) <= (p - 1) * n ->
  fst (handler_good_example_1 req w)
  = Ok (json 200 (VObj [("items", VArr []);
                        ("page", VNum (Int p));
                        ("limit", VNum (Int n));
                        ("hasMore", VBool false)])).
Proof.
  intros Hv Hlen.
  rewrite (handler_good_example_1_valid req w p n Hv).
  unfold page_slice. rewrite skipn_all2 by lia. rewrite firstn_nil.
  cbn [fst map List.length Z.of_nat].
  destruct Hv as (_ & _ & _ & _ & Hn).
  destruct (Z.eqb_spec 0 n); [ lia | reflexivity ].
Qed.

(** X3: a page past the end of the collection, its numbers within the safe
    integers, is not an error: it is answered with status 200, no items and
    [hasMore = false]. *)
Theorem page_past_the_end (req : Request) (w : World) (p n : Z) :
  safe_page_request req p n ->
  Z.of_nat (List.length (w_db w "items")) <= (p - 1) * n ->
  fst (handler_good_example_1 req w)
  = Ok (json 200 (VObj [("items", VArr []);
                        ("page", VNum (Int p));
                        ("limit", VNum (Int n));
                        ("hasMore", VBool false)])) /\
  snd (handler_good_example_1 req w) = w.
Proof.
  intros [Hv _] Hlen. split; [ apply (empty_page_run req w p n Hv Hlen) | ].
  rewrite (handler_good_example_1_valid req w p n Hv). reflexivity.
Qed.

Lemma page_past_the_end_witness :
  fst (handler_good_example_1 (page_request 3 "2") (sample_world 4))
  = Ok (json 200 (VObj [("items", VArr []);
                        ("page", VNum (Int 3));
                        ("limit", VNum (Int 2));
                        ("hasMore", VBool false)])) /\
  snd (handler_good_example_1 (page_request 3 "2") (sample_world 4))
  = sample_world 4.
Proof.
  apply (page_past_the_end (page_request 3 "2") (sample_world 4) 3 2).
  - safe_request.
  - vm_compute. discriminate.
Defined.

(** X4: when the number of records is a positive multiple of the page size,
    the last page that has records reports [hasMore = true]; the page after
    it is the one that reports [false]. *)
Theorem full_last_page_reports_more (w : World) (limit : string) (n k : Z) :
  parseInt (PStr limit) = Int n -> 1 <= n -> 1 <= k ->
  Z.of_nat (List.length (w_db w "items")) = k * n ->
  (exists items,
      fst (handler_good_example_1 (page_request k limit) w)
      = Ok (json 200 (VObj [("items", VArr items);
                            ("page", VNum (Int k));
                            ("limit", VNum (Int n));
                            ("hasMore", VBool true)])) /\
      Z.of_nat (List.length items) = n) /\
  fst (handler_good_example_1 (page_request (k + 1) limit) w)
  = Ok (json 200 (VObj [("items", VArr []);
                        ("page", VNum (Int (k + 1)));
                        ("limit", VNum (Int n));
                        ("hasMore", VBool false)])).
Proof.
  intros Hl Hn Hk Hlen. split.
  - rewrite (handler_good_example_1_valid _ w k n)
      by (apply page_request_valid; assumption).
    assert (Hsz : Z.of_nat (List.length (page_slice (w_db w "items") k n)) = n).
    { unfold page_slice. rewrite length_firstn, length_skipn. nia. }
    eexists. split.
    + cbn [fst]. rewrite Hsz, Z.eqb_refl. reflexivity.
    + rewrite length_map. exact Hsz.
  - apply (empty_page_run _ w (k + 1) n).
    + apply page_request_valid; [ lia | exact Hl | exact Hn ].
    + replace (k + 1 - 1) with k by lia. lia.
Qed.

Lemma full_last_page_reports_more_witness :
  (exists items,
      fst (handler_good_example_1 (page_request 2 "50") (sample_world 100))
      = Ok (json 200 (VObj [("items", VArr items);
                            ("page", VNum (Int 2));
                            ("limit", VNum (Int 50));
                            ("hasMore", VBool true)])) /\
      Z.of_nat (List.length items) = 50) /\
  fst (handler_good_example_1 (page_request (2 + 1) "50") (sample_world 100))
  = Ok (json 200 (VObj [("items", VArr []);
                        ("page", VNum (Int (2 + 1)));
                        ("limit", VNum (Int 50));
                        ("hasMore", VBool false)])).
Proof.
  apply (full_last_page_reports_more (sample_world 100) "50" 50 2).
  - reflexivity.
  - lia.
  - lia.
  - vm_compute. reflexivity.
Defined.

(** ** The size check on a value without JSON text *)

Lemma stringify_undefined (v : value) :
  stringify v = None <-> v = VUndefined.
Proof.
  split.
  - destruct v as [| | b | n | s | l | o]; try discriminate; try reflexivity.
    destruct n; discriminate.
  - intros ->. reflexivity.
Qed.

(** X5: [checkResponseSize] throws a [TypeError] on [undefined], before it
    writes anything to the console.  On JSON data, that is on [null], a
    boolean, a number, a string, an array or an object, it does not throw
    and returns a size that is not negative. *)
Theorem checkResponseSize_undefined (data : value) (w : World) :
  (data = VUndefined ->
   exists msg, checkResponseSize data w = (Throw (TypeError msg), w)) /\
  (data <> VUndefined ->
   exists q, fst (checkResponseSize data w) = Ok q /\ (0 <= q)%Q).
Proof.
  split.
  - intros ->. eexists. reflexivity.
  - intros Hd. destruct (stringify data) as [s |] eqn:Hs.
    + exists (sizeInMB_of (byteLength s)). split.
      * rewrite (checkResponseSize_run data s w Hs). reflexivity.
      * pose proof (byteLength_nonneg s) as Hb.
        unfold sizeInMB_of, Qle. cbn. lia.
    + apply stringify_undefined in Hs. contradiction.
Qed.

(** ** The projection of [handler_good_example_2] *)

Lemma substring0_length (n : nat) (s : string) :
  String.length (substring0 n s) = Nat.min n (String.length s).
Proof.
  unfold substring0. revert s.
  induction n as [| n IH]; intros [| c s]; simpl; try reflexivity.
  rewrite IH. reflexivity.
Qed.

Lemma substring0_prefix (n : nat) (s : string) :
  String.prefix (substring0 n s) s = true.
Proof.
  unfold substring0. revert s.
  induction n as [| n IH]; intros [| c s]; simpl; try reflexivity.
  destruct (ascii_dec c c) as [_ | Hne]; [ apply IH | contradiction ].
Qed.

Lemma substring0_short (n : nat) (s : string) :
  (String.length s <= n)%nat -> substring0 n s = s.
Proof.
  unfold substring0. revert s.
  induction n as [| n IH]; intros [| c s]; simpl; intros Hl;
    try reflexivity; try lia.
  rewrite IH by lia. reflexivity.
Qed.

(** X6: the [shortDescription] of a record whose [description] is a string
    is a prefix of that string of at most 200 code units, and the string
    itself when it has no more than 200. *)
Theorem shortDescription_truncates (doc : Doc) (s : string) :
  get_prop "description" (doc_data doc) = VStr s ->
  exists o t,
    project_doc doc = Ok (VObj o) /\
    get_prop "shortDescription" o = VStr t /\
    (String.length t <= 200)%nat /\
    String.length t = Nat.min 200 (String.length s) /\
    String.prefix t s = true /\
    ((String.length s <= 200)%nat -> t = s).
Proof.
  intros Hd. unfold project_doc. rewrite Hd. cbn [shortDescription_of].
  do 2 eexists. split; [ reflexivity | ]. split; [ reflexivity | ].
  rewrite substring0_length. repeat split.
  - apply Nat.le_min_l.
  - apply substring0_prefix.
  - apply substring0_short.
Qed.

Lemma shortDescription_truncates_witness :
  let doc := mkDoc "doc3" [("description", VStr "a long story")] in
  exists o t,
    project_doc doc = Ok (VObj o) /\
    get_prop "shortDescription" o = VStr t /\
    (String.length t <= 200)%nat /\
    String.length t = Nat.min 200 (String.length "a long story") /\
    String.prefix t "a long story" = true /\
    ((String.length "a long story" <= 200)%nat -> t = "a long story").
Proof.
  intros doc. apply (shortDescription_truncates doc "a long story").
  reflexivity.
Defined.

Lemma project_doc_ok (d : Doc) :
  nullish_or_string (get_prop "description" (doc_data d)) = true ->
  exists v, project_doc d = Ok v /\ keys (props v) = projected_fields.
Proof.
  intros Hd. unfold project_doc.
  destruct (get_prop "description" (doc_data d));
    try discriminate Hd; cbn [shortDescription_of];
    (eexists; split; reflexivity).
Qed.

Lemma map_result_project_ok (l : list Doc) :
  (forall d, In d l ->
             nullish_or_string (get_prop "description" (doc_data d)) = true) ->
  exists items,
    map_result project_doc l = Ok items /\
    List.length items = List.length l /\
    Forall (fun v => keys (props v) = projected_fields) items.
Proof.
  induction l as [| d l IH]; intros Hl.
  - exists []. repeat split. constructor.
  - destruct IH as (items & Hitems & Hlen & Hall).
    { intros x Hx. apply Hl. right. exact Hx. }
    destruct (project_doc_ok d) as (o & Ho & Hk).
    { apply Hl. left. reflexivity. }
    cbn [map_result]. rewrite Ho, Hitems.
    eexists. split; [ reflexivity | ].
    split; [ cbn [List.length]; rewrite Hlen; reflexivity | ].
    constructor; [ exact Hk | exact Hall ].
Qed.


(** X7: on a valid request, its numbers within the safe integers,
    [handler_good_example_2] answers with status 200 when every record of
    the requested page has a [description] that is absent, [null] or a
    string: one item per record of the page, each with exactly the
    projected fields, and the page number echoed. *)
Theorem handler_good_example_2_answers
        (req : Request) (w : World) (p n : Z) :
  safe_page_request req p n ->
  (forall d, In d (page_slice (w_db w "items") p n) ->
             nullish_or_string (get_prop "description" (doc_data d)) = true) ->
  exists items,
    handler_good_example_2 req w
    = (Ok (json 200 (VObj [("items", VArr items); ("page", VNum (Int p))])), w)
    /\ List.length items = List.length (page_slice (w_db w "items") p n)
    /\ Forall (fun v => keys (props v) = projected_fields) items.
Proof.
  intros [Hv _] Hd.
  pose proof (run_good_example_1 req (w_db w) p n Hv) as Hrun.
  destruct (map_result_project_ok _ Hd) as (items & Hitems & Hlen & Hall).
  exists items. split; [ | split; assumption ].
  destruct Hv as (_ & Hp & _). unfold page_of in Hp.
  unfold handler_good_example_2, bind, get, lift. cbv zeta.
  change (run (w_db w) _) with (run (w_db w) (query_good_example_1 req)).
  rewrite Hrun. cbn [docs]. rewrite Hitems. unfold ret. rewrite Hp.
  reflexivity.
Qed.

Lemma handler_good_example_2_answers_witness :
  let req := page_request 2 "2" in
  let w := sample_world 5 in
  exists items,
    handler_good_example_2 req w
    = (Ok (json 200 (VObj [("items", VArr items); ("page", VNum (Int 2))])), w)
    /\ List.length items = List.length (page_slice (w_db w "items") 2 2)
    /\ Forall (fun v => keys (props v) = projected_fields) items.
Proof.
  intros req w. apply (handler_good_example_2_answers req w 2 2).
  - safe_request.
  - intros d Hin. vm_compute in Hin.
    destruct Hin as [<- | [<- | []]]; reflexivity.
Defined.



(** ** The complete example: errors *)


(** X10: a page size that is not a number ([limit=abc]) is not validated by
    either handler.  The complete example catches the rejection of the
    store, logs it and answers 500; the pagination handler lets it escape:
    it throws and sends nothing. *)
Theorem page_size_not_a_number (req : Request) (w : World) :
  method req = "GET" ->
  parseInt (limit_of req) = NaN ->
  (exists e,
      handler req w
      = (Ok internal_error,
         mkWorld (w_db w)
                 (w_console w ++ [ConsoleError "Error fetching items:" e]))) /\
  (exists e, handler_good_example_1 req w = (Throw e, w)).
Proof.
  intros Hm Hl. split.
  - destruct (query_handler_limit_offset req) as [Hql _].
    unfold handler. rewrite Hm.
    change (negb ("GET" =? "GET")%string) with false. cbv iota.
    unfold try_catch, bind, get, run. rewrite Hql, Hl.
    cbn [count_of]. eexists. reflexivity.
  - unfold limit_of in Hl.
    unfold handler_good_example_1, bind, get, run. cbv zeta.
    cbn [q_limit Store.offset Store.limit]. rewrite Hl.
    cbn [count_of]. eexists. reflexivity.
Qed.

Lemma page_size_not_a_number_witness :
  let req := mkRequest "GET" [("limit", "abc")] in
  let w := sample_world 3 in
  (exists e,
      handler req w
      = (Ok internal_error,
         mkWorld (w_db w)
                 (w_console w ++ [ConsoleError "Error fetching items:" e]))) /\
  (exists e, handler_good_example_1 req w = (Throw e, w)).
Proof.
  intros req w. apply (page_size_not_a_number req w); reflexivity.
Defined.

(** ** The complete example: the pagination block *)

(** X11: in the answer to a valid GET request, its numbers within the safe
    integers, [totalPages] is the least number of pages of [limit] records
    that hold [total] records, and [hasMore] says exactly that the page is
    before the last one. *)
Theorem pagination_block_consistent (req : Request) (w : World) (p n : Z) :
  method req = "GET" ->
  safe_page_request req p n ->
  exists items total totalPages hasMore,
    fst (handler req w)
    = Ok (json 200
            (VObj [("items", VArr items);
                   ("pagination",
                    VObj [("page", VNum (Int p));
                          ("limit", VNum (Int n));
                          ("total", VNum (Int total));
                          ("totalPages", VNum (Int totalPages));
                          ("hasMore", VBool hasMore)])])) /\
    0 <= total /\
    (totalPages - 1) * n < total <= totalPages * n /\
    (hasMore = true <-> p < totalPages).
Proof.
  intros Hm [Hv _]. rewrite (handler_valid req w p n Hm Hv).
  destruct Hv as (_ & _ & _ & Hp & Hn).
  set (total := Z.of_nat (List.length (selected (w_db w) (total_query req)))).
  assert (Ht : 0 <= total) by (unfold total; lia).
  pose proof (Z.div_mod (- total) n ltac:(lia)) as Hdm.
  pose proof (Z.mod_pos_bound (- total) n ltac:(lia)) as Hmb.
  do 4 eexists. split; [ reflexivity | ].
  split; [ exact Ht | ]. split; [ nia | ].
  rewrite Z.ltb_lt. split; intros H; nia.
Qed.

Lemma pagination_block_consistent_witness :
  let req := page_request 2 "2" in
  let w := sample_world 5 in
  exists items total totalPages hasMore,
    fst (handler req w)
    = Ok (json 200
            (VObj [("items", VArr items);
                   ("pagination",
                    VObj [("page", VNum (Int 2));
                          ("limit", VNum (Int 2));
                          ("total", VNum (Int total));
                          ("totalPages", VNum (Int totalPages));
                          ("hasMore", VBool hasMore)])])) /\
    0 <= total /\
    (totalPages - 1) * 2 < total <= totalPages * 2 /\
    (hasMore = true <-> 2 < totalPages).
Proof.
  intros req w. apply (pagination_block_consistent req w 2 2).
  - reflexivity.
  - safe_request.
Defined.

(** ** What a query selects *)

Lemma In_insert_doc (f : string) (d : Doc) (l : list Doc) (x : Doc) :
  In x (insert_doc f d l) <-> x = d \/ In x l.
Proof.
  induction l as [| e l IH]; simpl.
  - intuition.
  - destruct (value_leb _ _); simpl; [ intuition | ].
    rewrite IH. intuition.
Qed.

Lemma length_insert_doc (f : string) (d : Doc) (l : list Doc) :
  List.length (insert_doc f d l) = S (List.length l).
Proof.
  induction l as [| e l IH]; simpl; [ reflexivity | ].
  destruct (value_leb _ _); simpl; [ reflexivity | rewrite IH; reflexivity ].
Qed.

Lemma In_sort_docs (f : string) (l : list Doc) (x : Doc) :
  In x (sort_docs f l) <-> In x l.
Proof.
  induction l as [| e l IH]; simpl; [ reflexivity | ].
  rewrite In_insert_doc, IH. intuition.
Qed.

Lemma length_sort_docs (f : string) (l : list Doc) :
  List.length (sort_docs f l) = List.length l.
Proof.
  induction l as [| e l IH]; simpl; [ reflexivity | ].
  rewrite length_insert_doc, IH. reflexivity.
Qed.

Lemma filter_length_le {A} (f : A -> bool) (l : list A) :
  (List.length (filter f l) <= List.length l)%nat.
Proof.
  induction l as [| x l IH]; simpl; [ lia | ].
  destruct (f x); simpl; lia.
Qed.

Lemma filter_length_mono {A} (f g : A -> bool) (l : list A) :
  (forall x, f x = true -> g x = true) ->
  (List.length (filter f l) <= List.length (filter g l))%nat.
Proof.
  intros Hfg. induction l as [| x l IH]; simpl; [ lia | ].
  destruct (f x) eqn:Hf.
  - rewrite (Hfg x Hf). simpl. lia.
  - destruct (g x); simpl; lia.
Qed.

Lemma In_ordered (o : option (string * direction)) (l : list Doc) (x : Doc) :
  In x (ordered o l) ->
  In x l /\
  (forall f d, o = Some (f, d) -> has_prop f (doc_data x) = true).
Proof.
  destruct o as [[f d] |]; simpl.
  - intros Hin.
    assert (H : In x (filter (fun y => has_prop f (doc_data y)) l)).
    { destruct d; [ | apply in_rev in Hin ]; apply In_sort_docs in Hin;
        exact Hin. }
    apply filter_In in H. destruct H as [H1 H2].
    split; [ exact H1 | ]. intros f' d' [= <- <-]. exact H2.
  - intros Hin. split; [ exact Hin | ]. intros f d [=].
Qed.

Lemma length_ordered (o : option (string * direction)) (l : list Doc) :
  (List.length (ordered o l) <= List.length l)%nat.
Proof.
  destruct o as [[f d] |]; simpl; [ | lia ].
  pose proof (filter_length_le (fun y => has_prop f (doc_data y)) l).
  destruct d; rewrite ?length_rev, length_sort_docs; lia.
Qed.

Lemma In_selected (db : Db) (q : Query) (d : Doc) :
  In d (selected db q) ->
  In d (db (q_collection q)) /\
  forallb (matches d) (q_where q) = true /\
  (forall f dir, q_orderBy q = Some (f, dir) -> has_prop f (doc_data d) = true).
Proof.
  unfold selected. intros Hin.
  apply In_ordered in Hin. destruct Hin as [Hin Hord].
  apply filter_In in Hin. destruct Hin as [Hc Hw].
  repeat split; assumption.
Qed.

Lemma matches_field (d : Doc) (f v : string) :
  matches d (f, v) = true <-> get_prop f (doc_data d) = VStr v.
Proof.
  unfold matches. cbn [fst snd].
  destruct (get_prop f (doc_data d)); split; try discriminate.
  - intros H. apply String.eqb_eq in H. subst. reflexivity.
  - intros [= ->]. apply String.eqb_refl.
Qed.

(** Queries that agree on collection, filters and ordering select the
    same records. *)
Lemma selected_ext (db : Db) (q q' : Query) :
  q_collection q = q_collection q' ->
  q_where q = q_where q' ->
  q_orderBy q = q_orderBy q' ->
  selected db q = selected db q'.
Proof.
  intros Hc Hw Ho. unfold selected. rewrite Hc, Hw, Ho. reflexivity.
Qed.

Lemma query_handler_shape (req : Request) :
  q_collection (query_handler req) = "items" /\
  q_where (query_handler req)
  = ("status", status_of req) :: category_filter req /\
  q_orderBy (query_handler req) = Some ("createdAt", Desc).
Proof.
  unfold query_handler, category_filter.
  destruct (lookup "category" (query req)) as [[| c r] |];
    repeat split; reflexivity.
Qed.

(** The complete example selects among the records it counts. *)
Lemma selected_le_total (req : Request) (db : Db) :
  (List.length (selected db (query_handler req))
   <= List.length (selected db (total_query req)))%nat.
Proof.
  destruct (query_handler_shape req) as (Hc & Hw & Ho).
  unfold selected at 1. rewrite Hc, Hw.
  etransitivity; [ apply length_ordered | ].
  unfold selected, total_query.
  cbn [q_orderBy q_where q_collection where_eq collection ordered app].
  apply filter_length_mono. intros x Hx.
  cbn [forallb] in *. apply andb_true_iff in Hx. destruct Hx as [Hx _].
  rewrite Hx. reflexivity.
Qed.



(** ** Paging through the complete example *)

Lemma items_request_valid
      (p : Z) (limit : string) (others : list (string * string)) (n : Z) :
  1 <= p -> parseInt (PStr limit) = Int n -> 1 <= n ->
  valid_page_request (items_request p limit others) p n.
Proof.
  intros Hp Hl Hn. destruct (page_number_roundtrip p Hp) as [H1 H2].
  repeat split; assumption.
Qed.

Lemma items_request_selection
      (db : Db) (p : Z) (limit : string) (others : list (string * string)) :
  selected db (query_handler (items_request p limit others))
  = selected db (query_handler (items_request 1 limit others)).
Proof.
  destruct (query_handler_shape (items_request p limit others))
    as (Hc & Hw & Ho).
  destruct (query_handler_shape (items_request 1 limit others))
    as (Hc' & Hw' & Ho').
  apply selected_ext; [ congruence | | congruence ].
  rewrite Hw, Hw'. reflexivity.
Qed.

Lemma items_request_total
      (p : Z) (limit : string) (others : list (string * string)) :
  total_query (items_request p limit others)
  = total_query (items_request 1 limit others).
Proof. reflexivity. Qed.




(** ** Filtering on the server: [handler_good_example_3] *)

Lemma query_good_example_3_shape (req : Request) :
  q_collection (query_good_example_3 req) = "items" /\
  q_where (query_good_example_3 req)
  = ("status", or_else (lookup "status" (query req)) "active")
      :: category_filter req /\
  q_orderBy (query_good_example_3 req) = Some ("createdAt", Desc) /\
  q_limit (query_good_example_3 req) = Some (parseInt (limit_of req)) /\
  q_offset (query_good_example_3 req) = None.
Proof.
  unfold query_good_example_3, category_filter, limit_of.
  destruct (lookup "category" (query req)) as [[| c r] |];
    repeat split; reflexivity.
Qed.

(** X14: for a page size [n >= 0] within the safe integers,
    [handler_good_example_3] answers with at most [n] records of the
    collection, whole; each has the requested status, ["active"] when the
    request names none or an empty one, and the requested category when the
    request names one. *)
Theorem handler_good_example_3_filters (req : Request) (w : World) (n : Z) :
  parseInt (limit_of req) = Int n ->
  0 <= n <= MAX_SAFE_INTEGER ->
  let fetched :=
    firstn (Z.to_nat n) (selected (w_db w) (query_good_example_3 req)) in
  handler_good_example_3 req w
  = (Ok (json 200 (VObj [("items", VArr (map data_of_doc fetched))])), w) /\
  Z.of_nat (List.length fetched) <= n /\
  Forall (fun d =>
            In d (w_db w "items") /\
            get_prop "status" (doc_data d)
            = VStr (or_else (lookup "status" (query req)) "active") /\
            (forall c, In ("category", c) (category_filter req) ->
                       get_prop "category" (doc_data d) = VStr c))
         fetched.
Proof.
  intros Hl [Hn _] fetched. unfold fetched.
  destruct (query_good_example_3_shape req) as (Hc & Hw & Ho & Hlim & Hoff).
  split; [ | split ].
  - unfold handler_good_example_3, bind, get, run.
    rewrite Hlim, Hoff, Hl, (count_of_nonneg n Hn). reflexivity.
  - pose proof (firstn_le_length (Z.to_nat n)
                  (selected (w_db w) (query_good_example_3 req))).
    lia.
  - apply Forall_forall. intros d Hin.
    assert (Hsel : In d (selected (w_db w) (query_good_example_3 req))).
    { revert Hin. generalize (selected (w_db w) (query_good_example_3 req)).
      generalize (Z.to_nat n).
      induction n0 as [| m IH]; intros [| y l]; simpl; try tauto.
      intros [-> | Hin]; [ left; reflexivity | right; apply (IH _ Hin) ]. }
    apply In_selected in Hsel. rewrite Hc, Hw in Hsel.
    destruct Hsel as (Hcoll & Hf & _).
    cbn [forallb] in Hf. apply andb_true_iff in Hf. destruct Hf as [Hs Hcat].
    split; [ exact Hcoll | ].
    split; [ apply matches_field; exact Hs | ].
    intros c Hc'. apply matches_field.
    rewrite forallb_forall in Hcat. apply Hcat. exact Hc'.
Qed.

Lemma handler_good_example_3_filters_witness :
  let req := mkRequest "GET" [("status", ""); ("category", "books");
                              ("limit", "3")] in
  let w := catalog_world 12 in
  let fetched :=
    firstn 3 (selected (w_db w) (query_good_example_3 req)) in
  fetched = [catalog_doc 10; catalog_doc 8; catalog_doc 4] /\
  or_else (lookup "status" (query req)) "active" = "active" /\
  category_filter req = [("category", "books")] /\
  handler_good_example_3 req w
  = (Ok (json 200 (VObj [("items", VArr (map data_of_doc fetched))])), w) /\
  Z.of_nat (List.length fetched) <= 3 /\
  Forall (fun d =>
            In d (w_db w "items") /\
            get_prop "status" (doc_data d)
            = VStr (or_else (lookup "status" (query req)) "active") /\
            (forall c, In ("category", c) (category_filter req) ->
                       get_prop "category" (doc_data d) = VStr c))
         fetched.
Proof.
  intros req w fetched.
  split; [ vm_compute; reflexivity | ].
  split; [ reflexivity | ]. split; [ reflexivity | ].
  apply (handler_good_example_3_filters req w 3).
  - reflexivity.
  - unfold MAX_SAFE_INTEGER. lia.
Defined.

(** ** Summaries: [handler_good_example_4] *)

Lemma selected_with_field (db : Db) (name field v : string) :
  selected db (where_eq field v (collection name))
  = with_field field v (db name).
Proof.
  unfold selected, with_field.
  cbn [q_orderBy q_where q_collection where_eq collection ordered app].
  apply filter_ext. intros d. cbn [forallb]. apply andb_true_r.
Qed.

Lemma category_summary_run (catDoc : Doc) (w : World) :
  category_summary catDoc w
  = (Ok (summary_of catDoc
           (List.length (with_field "categoryId" (doc_id catDoc)
                                    (w_db w "items")))),
     w).
Proof.
  unfold category_summary, bind, get, run.
  cbn [q_limit q_offset Store.limit where_eq collection count_of Z.ltb
       Z.compare Z.to_nat Pos.to_nat Pos.iter_op].
  change (selected (w_db w) _)
    with (selected (w_db w)
            (where_eq "categoryId" (doc_id catDoc) (collection "items"))).
  rewrite selected_with_field. unfold ret, summary_of, size. cbn [docs].
  change (Pos.to_nat 10) with 10%nat.
  rewrite length_firstn. do 8 f_equal. lia.
Qed.

Lemma for_each_summaries (l : list Doc) (w : World) :
  for_each category_summary l w
  = (Ok (map (fun c =>
                summary_of c
                  (List.length (with_field "categoryId" (doc_id c)
                                           (w_db w "items")))) l),
     w).
Proof.
  induction l as [| c l IH]; [ reflexivity | ].
  cbn [for_each map]. unfold bind at 1.
  rewrite category_summary_run. unfold bind at 1. rewrite IH. reflexivity.
Qed.

(** X15: [handler_good_example_4] answers with one summary per category, in
    the order of the collection, with the id and the name of the category
    and an [itemCount] that is the number of items of the category up to
    10, and 10 for any category with more. *)
Theorem handler_good_example_4_summaries (req : Request) (w : World) :
  handler_good_example_4 req w
  = (Ok (json 200
           (VObj [("categories",
                   VArr (map (fun c =>
                                summary_of c
                                  (List.length
                                     (with_field "categoryId" (doc_id c)
                                                 (w_db w "items"))))
                             (w_db w "categories")))])),
     w).
Proof.
  unfold handler_good_example_4, bind at 1, get, run.
  cbn [q_limit q_offset collection count_of].
  rewrite selected_plain by reflexivity. cbn [q_collection collection docs].
  unfold bind. rewrite for_each_summaries. reflexivity.
Qed.

(** ** A user and the first posts: [handler_good_example_5] *)

(** X16: when the request names a user and the store has no document of that
    name, [handler_good_example_5] throws a [TypeError] on reading the name
    of the absent data; it sends no answer of its own. *)
Theorem handler_good_example_5_unknown_user
        (req : Request) (w : World) (c : ascii) (r : string) :
  lookup "userId" (query req) = Some (String c r) ->
  (forall d, In d (w_db w "users") -> doc_id d <> String c r) ->
  exists msg, handler_good_example_5 req w = (Throw (TypeError msg), w).
Proof.
  intros Hu Hnone.
  assert (Hf : find (fun d => String.eqb (doc_id d) (String c r))
                    (w_db w "users") = None).
  { destruct (find _ (w_db w "users")) as [d |] eqn:Hfind; [ | reflexivity ].
    apply find_some in Hfind. destruct Hfind as [Hin Heq].
    apply String.eqb_eq in Heq. exfalso. exact (Hnone d Hin Heq). }
  unfold handler_good_example_5, bind, doc_get, lift, get, run.
  rewrite Hu. cbv zeta. rewrite Hf.
  cbn [where_param q_limit q_offset Store.limit where_eq collection count_of
       Z.ltb Z.compare option_map snap_data].
  eexists. reflexivity.
Qed.

Lemma handler_good_example_5_unknown_user_witness :
  let req := mkRequest "GET" [("userId", "u9")] in
  let w := sample_world 3 in
  exists msg, handler_good_example_5 req w = (Throw (TypeError msg), w).
Proof.
  intros req w.
  apply (handler_good_example_5_unknown_user req w "u" "9").
  - reflexivity.
  - intros d [].
Defined.

(** X17: when the store has the user, the answer carries the requested id
    with the user's name and email and nothing else of the user; the first
    10 posts of that user, fewer when the user has fewer, each reduced to
    its id, title and creation date; and a [postCount] that is the number
    of posts returned, not the number the user has. *)
Theorem handler_good_example_5_known_user
        (req : Request) (w : World) (c : ascii) (r : string) (u : Doc) :
  lookup "userId" (query req) = Some (String c r) ->
  find (fun d => String.eqb (doc_id d) (String c r)) (w_db w "users") = Some u ->
  let posts := firstn 10 (with_field "userId" (String c r) (w_db w "posts")) in
  handler_good_example_5 req w
  = (Ok (json 200
           (VObj [("user",
                   VObj [("id", VStr (String c r));
                         ("name", get_prop "name" (doc_data u));
                         ("email", get_prop "email" (doc_data u))]);
                  ("posts",
                   VArr (map (fun d =>
                                VObj [("id", VStr (doc_id d));
                                      ("title", get_prop "title" (doc_data d));
                                      ("createdAt",
                                       get_prop "createdAt" (doc_data d))])
                             posts));
                  ("postCount", VNum (Int (Z.of_nat (List.length posts))))])),
     w) /\
  (List.length posts <= 10)%nat /\
  List.length posts
  = Nat.min 10
      (List.length (with_field "userId" (String c r) (w_db w "posts"))) /\
  Forall (fun d => In d (w_db w "posts") /\
                   get_prop "userId" (doc_data d) = VStr (String c r))
         posts.
Proof.
  intros Hu Hf posts. unfold posts.
  split; [ | split; [ | split ] ].
  - unfold handler_good_example_5, bind, doc_get, lift, get, run.
    rewrite Hu. cbv zeta. rewrite Hf.
    cbn [where_param q_limit q_offset Store.limit where_eq collection count_of
         Z.ltb Z.compare option_map snap_data snap_id Z.to_nat Pos.to_nat
         Pos.iter_op].
    change (selected (w_db w) _)
      with (selected (w_db w)
              (where_eq "userId" (String c r) (collection "posts"))).
    rewrite selected_with_field. reflexivity.
  - apply firstn_le_length.
  - apply length_firstn.
  - apply Forall_forall. intros d Hin.
    assert (Hw : In d (with_field "userId" (String c r) (w_db w "posts"))).
    { revert Hin. generalize (with_field "userId" (String c r) (w_db w "posts")).
      generalize 10%nat.
      induction n as [| m IH]; intros [| y l]; simpl; try tauto.
      intros [-> | Hin]; [ left; reflexivity | right; apply (IH _ Hin) ]. }
    unfold with_field in Hw. apply filter_In in Hw.
    destruct Hw as [Hin' Hm]. split; [ exact Hin' | ].
    apply matches_field. exact Hm.
Qed.

Lemma handler_good_example_5_known_user_witness :
  let req := mkRequest "GET" [("userId", "u1")] in
  let w := blog_world in
  let u := mkDoc "u1" [("name", VStr "Ann");
                       ("email", VStr "ann@example.org");
                       ("bio", VStr "a long text")] in
  let posts := firstn 10 (with_field "userId" "u1" (w_db w "posts")) in
  List.length (with_field "userId" "u1" (w_db w "posts")) = 12%nat /\
  List.length posts = 10%nat /\
  handler_good_example_5 req w
  = (Ok (json 200
           (VObj [("user",
                   VObj [("id", VStr "u1");
                         ("name", VStr "Ann");
                         ("email", VStr "ann@example.org")]);
                  ("posts",
                   VArr (map (fun d =>
                                VObj [("id", VStr (doc_id d));
                                      ("title", get_prop "title" (doc_data d));
                                      ("createdAt",
                                       get_prop "createdAt" (doc_data d))])
                             posts));
                  ("postCount", VNum (Int (Z.of_nat (List.length posts))))])),
     w) /\
  (List.length posts <= 10)%nat /\
  List.length posts
  = Nat.min 10 (List.length (with_field "userId" "u1" (w_db w "posts"))) /\
  Forall (fun d => In d (w_db w "posts") /\
                   get_prop "userId" (doc_data d) = VStr "u1")
         posts.
Proof.
  intros req w u posts.
  split; [ vm_compute; reflexivity | ].
  split; [ vm_compute; reflexivity | ].
  apply (handler_good_example_5_known_user req w "u" "1" u); reflexivity.
Defined.

(** ** Streaming: [handler_streaming_example] *)

Lemma append_assoc (a b c : string) : (a ++ b) ++ c = a ++ (b ++ c).
Proof. induction a as [| x a IH]; simpl; [ | rewrite IH ]; reflexivity. Qed.

Lemma append_empty_r (a : string) : a ++ "" = a.
Proof. induction a as [| x a IH]; simpl; [ | rewrite IH ]; reflexivity. Qed.

Lemma written_write (chunk : string) (res : Stream) :
  written (write chunk res) = written res ++ chunk.
Proof.
  unfold written, write. cbn [s_chunks].
  induction (s_chunks res) as [| x l IH]; simpl.
  - apply append_empty_r.
  - rewrite IH, append_assoc. reflexivity.
Qed.

Lemma stream_docs_run (l : list Doc) (first : bool) (res : Stream) :
  exists res',
    stream_docs l first res = Ok res' /\
    written res' = written res ++ streamed_text first l /\
    s_headers res' = s_headers res /\
    s_ended res' = s_ended res.
Proof.
  revert first res. induction l as [| d l IH]; intros first res.
  - exists res. cbn [stream_docs streamed_text].
    rewrite append_empty_r. repeat split.
  - cbn [stream_docs streamed_text]. unfold element_text.
    destruct (stringify (data_of_doc d)) as [s |] eqn:Hs;
      [ | discriminate Hs ].
    destruct (IH false (write s (if negb first then write "," res else res)))
      as (res' & Hrun & Hw & Hh & He).
    exists res'. split; [ exact Hrun | ].
    rewrite Hw, Hh, He, written_write.
    destruct first; cbn [negb]; rewrite ?written_write, ?append_assoc;
      repeat split.
Qed.

Lemma streamed_text_concat (l : list Doc) :
  streamed_text true l
  = String.concat "," (map element_text (map data_of_doc l)).
Proof.
  induction l as [| d l IH]; [ reflexivity | ].
  cbn [streamed_text map]. destruct l as [| e l].
  - cbn [streamed_text map String.concat]. apply append_empty_r.
  - change (String.concat "," (element_text (data_of_doc d)
                                 :: map element_text (map data_of_doc (e :: l))))
      with (element_text (data_of_doc d) ++ "," ++
            String.concat "," (map element_text (map data_of_doc (e :: l)))).
    rewrite <- IH. reflexivity.
Qed.

(** X18: [handler_streaming_example] writes, chunk by chunk, exactly the JSON
    text of the array of all records, the text [handler_bad_example_1] sends
    in one piece; it sets the two headers, ends the response, and leaves the
    store as it was. *)
Theorem streaming_sends_the_whole_array (req : Request) (w : World) :
  exists res r,
    handler_streaming_example req new_stream w = (Ok res, w) /\
    handler_bad_example_1 req w = (Ok r, w) /\
    stringify (body r) = Some (written res) /\
    body r = VArr (map data_of_doc (w_db w "items")) /\
    s_headers res = [("Content-Type", "application/json");
                     ("Transfer-Encoding", "chunked")] /\
    s_ended res = true.
Proof.
  unfold handler_streaming_example, handler_bad_example_1, bind, get, run, lift.
  cbn [q_limit q_offset collection count_of].
  rewrite selected_plain by reflexivity. cbn [q_collection collection docs].
  destruct (stream_docs_run (w_db w "items") true
              (write "["
                 (setHeader "Transfer-Encoding" "chunked"
                    (setHeader "Content-Type" "application/json" new_stream))))
    as (res' & Hrun & Hw & Hh & He).
  rewrite Hrun. do 2 eexists.
  split; [ reflexivity | ]. split; [ reflexivity | ].
  split; [ | split; [ reflexivity | split; [ exact Hh | reflexivity ] ] ].
  change (written (end_stream ?x)) with (written x).
  rewrite written_write, Hw, written_write, streamed_text_concat.
  cbn [body json stringify]. rewrite append_assoc. reflexivity.
Qed.

(** ** The size check in a handler: [handler_with_size_check] *)

(** X19: the size check in a handler is advisory.  Whatever the size of the
    data, the handler answers 200 with the data as its body; before that it
    logs the size of the JSON text of that body, and a warning when the text
    is above 4,718,592 bytes. *)
Theorem size_check_is_advisory
        (getData : M value) (req : Request) (w w1 : World)
        (data : value) (s : string) :
  getData w = (Ok data, w1) ->
  stringify data = Some s ->
  handler_with_size_check getData req w
  = (Ok (json 200 data),
     mkWorld (w_db w1)
             ((w_console w1 ++ [size_log (byteLength s)])
                ++ (if 4718592 <? byteLength s then [size_warning] else []))%list).
Proof.
  intros Hg Hs. unfold handler_with_size_check, bind at 1. rewrite Hg.
  unfold bind. rewrite (checkResponseSize_run data s w1 Hs). reflexivity.
Qed.

Lemma size_check_is_advisory_witness :
  let w := sample_world 0 in
  handler_with_size_check (ret (VStr "hello")) (mkRequest "GET" []) w
  = (Ok (json 200 (VStr "hello")),
     mkWorld (w_db w)
             ((w_console w ++ [size_log (byteLength (quote "hello"))])
                ++ (if 4718592 <? byteLength (quote "hello")
                    then [size_warning] else []))%list).
Proof.
  intros w.
  apply (size_check_is_advisory (ret (VStr "hello")) (mkRequest "GET" []) w w
           (VStr "hello") (quote "hello")); reflexivity.
Defined.

(** ** [hasMore = false] can be trusted *)

(** X20: when the pagination handler reports [hasMore = false] for a page,
    there is nothing after it: the next page of the same size, its numbers
    within the safe integers, has no items. *)
Theorem hasMore_false_is_final
        (w : World) (limit : string) (n p : Z) (r : Response) :
  parseInt (PStr limit) = Int n -> 1 <= n -> 1 <= p ->
  (p + 1) * n <= MAX_SAFE_INTEGER ->
  fst (handler_good_example_1 (page_request p limit) w) = Ok r ->
  get_prop "hasMore" (props (body r)) = VBool false ->
  fst (handler_good_example_1 (page_request (p + 1) limit) w)
  = Ok (json 200 (VObj [("items", VArr []);
                        ("page", VNum (Int (p + 1)));
                        ("limit", VNum (Int n));
                        ("hasMore", VBool false)])).
Proof.
  intros Hl Hn Hp _ Hr Hmore.
  rewrite (handler_good_example_1_valid _ w p n) in Hr
    by (apply page_request_valid; assumption).
  injection Hr as <-. cbn [body json props] in Hmore.
  change (get_prop "hasMore" [_; _; _; ("hasMore", ?v)]) with v in Hmore.
  injection Hmore as Hmore. apply Z.eqb_neq in Hmore.
  unfold page_slice in Hmore. rewrite length_firstn, length_skipn in Hmore.
  apply (empty_page_run _ w (p + 1) n).
  - apply page_request_valid; [ lia | exact Hl | exact Hn ].
  - replace (p + 1 - 1) with p by lia. nia.
Qed.

Lemma hasMore_false_is_final_witness :
  fst (handler_good_example_1 (page_request (2 + 1) "2") (sample_world 3))
  = Ok (json 200 (VObj [("items", VArr []);
                        ("page", VNum (Int (2 + 1)));
                        ("limit", VNum (Int 2));
                        ("hasMore", VBool false)])).
Proof.
  apply (hasMore_false_is_final (sample_world 3) "2" 2 2
           (json 200
              (VObj [("items", VArr [item_of_doc (sample_doc 2)]);
                     ("page", VNum (Int 2));
                     ("limit", VNum (Int 2));
                     ("hasMore", VBool false)]))).
  - reflexivity.
  - lia.
  - lia.
  - unfold MAX_SAFE_INTEGER. lia.
  - reflexivity.
  - reflexivity.
Defined.

(** X21: when the complete example reports [hasMore = false] for a page,
    whatever the filters of the request, the next page, its numbers within
    the safe integers, has no items and reports [hasMore = false] too. *)
Theorem handler_hasMore_false_is_final
        (w : World) (limit : string) (others : list (string * string))
        (n p : Z) (r : Response) :
  parseInt (PStr limit) = Int n -> 1 <= n -> 1 <= p ->
  (p + 1) * n <= MAX_SAFE_INTEGER ->
  fst (handler (items_request p limit others) w) = Ok r ->
  get_prop "hasMore" (props (get_prop "pagination" (props (body r))))
  = VBool false ->
  exists r',
    fst (handler (items_request (p + 1) limit others) w) = Ok r' /\
    get_prop "items" (props (body r')) = VArr [] /\
    get_prop "hasMore" (props (get_prop "pagination" (props (body r'))))
    = VBool false.
Proof.
  intros Hl Hn Hp _ Hr Hmore.
  pose proof (selected_le_total (items_request 1 limit others) (w_db w)) as Hle.
  rewrite (handler_valid _ w p n) in Hr
    by (reflexivity || (apply items_request_valid; assumption)).
  injection Hr as <-. cbn [body json props] in Hmore.
  change (get_prop "pagination" [_; ("pagination", ?v)]) with v in Hmore.
  cbn [props] in Hmore.
  change (get_prop "hasMore" [_; _; _; _; ("hasMore", ?v)]) with v in Hmore.
  injection Hmore as Hmore. apply Z.ltb_ge in Hmore.
  rewrite items_request_total in Hmore.
  rewrite (handler_valid _ w (p + 1) n)
    by (reflexivity || (apply items_request_valid; [ lia | exact Hl | exact Hn ])).
  rewrite items_request_selection, items_request_total.
  eexists. split; [ reflexivity | ]. cbn [body json props].
  change (get_prop "items" (("items", ?v) :: _)) with v.
  change (get_prop "pagination" [_; ("pagination", ?v)]) with v.
  cbn [props].
  change (get_prop "hasMore" [_; _; _; _; ("hasMore", ?v)]) with v.
  split.
  - unfold page_slice. rewrite skipn_all2 by nia. rewrite firstn_nil.
    reflexivity.
  - f_equal. apply Z.ltb_ge. nia.
Qed.

Lemma handler_hasMore_false_is_final_witness :
  let w := sample_world 4 in
  let others := [("status", "active")] in
  exists r',
    fst (handler (items_request (2 + 1) "2" others) w) = Ok r' /\
    get_prop "items" (props (body r')) = VArr [] /\
    get_prop "hasMore" (props (get_prop "pagination" (props (body r'))))
    = VBool false.
Proof.
  intros w others.
  apply (handler_hasMore_false_is_final w "2" others 2 2
           (json 200
              (VObj [("items",
                      VArr [item_handler (sample_doc 1);
                            item_handler (sample_doc 0)]);
                     ("pagination",
                      VObj [("page", VNum (Int 2));
                            ("limit", VNum (Int 2));
                            ("total", VNum (Int 4));
                            ("totalPages", VNum (Int 2));
                            ("hasMore", VBool false)])]))).
  - reflexivity.
  - lia.
  - lia.
  - unfold MAX_SAFE_INTEGER. lia.
  - reflexivity.
  - reflexivity.
Defined.
